(** * The portfolio store: accounts, transactions, budgets

    A shallow embedding of [portfolio-manager/src/store/portfolioStore.ts].
    The store is a zustand container holding three arrays and a set of
    actions [set (state => partial)] and queries [get ()].  Actions are
    embedded as functions from state to state, queries as functions of the
    state.  JavaScript values are embedded as follows:

    - [number] is an IEEE 754 binary64 value: Rocq's primitive [float];
    - [string] is [String.string], [===] on strings is [String.eqb];
    - arrays are lists, with [map], [filter], [find] and [reduce]
      ([fold_left]) as in the source;
    - a [Date] is its time value, milliseconds since the epoch, or NaN for
      an invalid date: [option Z]; the offset of the local time zone is a
      function of the time, [EcmaDate.Zone];
    - [crypto.randomUUID ()] and [new Date ()] read the environment: the
      value read is an explicit argument of the embedded function;
    - the [persist] middleware writes the data through [JSON.stringify]
      and reads it back through [JSON.parse]: both are embedded together,
      as one function on the tree of values. *)

From Stdlib Require Import ZArith List String Bool Floats Lia.
Import ListNotations.

Local Open Scope string_scope.
Local Open Scope Z_scope.

(** ** JavaScript primitives used by the store *)

Module Js.

Definition number := float.

(** ToBoolean on a number: [0], [-0] and [NaN] are falsy. *)
Definition truthy (x : number) : bool := negb (is_nan x || is_zero x).

(** [x || y] on numbers. *)
Definition or (x y : number) : number := if truthy x then x else y.

(** [x === y] on numbers: IEEE equality ([NaN] differs from itself,
    [0] equals [-0]). *)
Definition strict_eq (x y : number) : bool := PrimFloat.eqb x y.

(** [a ?. f || 0] when [a] is the result of [Array.prototype.find]:
    [undefined || 0] is [0]. *)
Definition opt_or {A} (a : option A) (f : A -> number) (d : number) : number :=
  match a with
  | Some v => or (f v) d
  | None => d
  end.

(** [{ ...o, k: v }] for an optional [k] of a [Partial]: the property of
    the update wins when it is present. *)
Definition spread {A} (old : A) (upd : option A) : A :=
  match upd with
  | Some v => v
  | None => old
  end.

(** A [Date]: the time value in milliseconds since the epoch, [None] for
    the NaN of an invalid date. *)
Definition Date := option Z.

(** [a >= b] on two [Date]s: both are converted to their time values and
    compared as numbers; a comparison with NaN is false. *)
Definition date_ge (a b : Date) : bool :=
  match a, b with
  | Some x, Some y => y <=? x
  | _, _ => false
  end.

End Js.

(** [a === b] on strings. *)
Notation "a === b" := (String.eqb a b) (at level 70, no associativity).

(** ** Data model *)

Inductive AccountType := checking | savings | investment | credit.
Inductive TransactionType := income | expense | transfer.
Inductive BudgetPeriod := monthly | weekly | yearly.

Definition TransactionType_eqb (a b : TransactionType) : bool :=
  match a, b with
  | income, income | expense, expense | transfer, transfer => true
  | _, _ => false
  end.

Module Account.
Record t := mk {
  id : string;
  name : string;
  type : AccountType;
  balance : Js.number;
  currency : string
}.

(** [Omit<Account, 'id'>] *)
Record input := mk_input {
  i_name : string;
  i_type : AccountType;
  i_balance : Js.number;
  i_currency : string
}.

(** [Partial<Account>]: each property present or absent. *)
Record partial := mk_partial {
  p_id : option string;
  p_name : option string;
  p_type : option AccountType;
  p_balance : option Js.number;
  p_currency : option string
}.

(** [{ ...account, id: uuid }] *)
Definition with_id (account : input) (uuid : string) : t :=
  mk uuid (i_name account) (i_type account) (i_balance account)
     (i_currency account).

(** [{ ...account, ...updates }] *)
Definition merge (account : t) (updates : partial) : t :=
  mk (Js.spread (id account) (p_id updates))
     (Js.spread (name account) (p_name updates))
     (Js.spread (type account) (p_type updates))
     (Js.spread (balance account) (p_balance updates))
     (Js.spread (currency account) (p_currency updates)).

(** [{ ...account, balance: b }] *)
Definition with_balance (account : t) (b : Js.number) : t :=
  mk (id account) (name account) (type account) b (currency account).
End Account.

Module Transaction.
Record t := mk {
  id : string;
  accountId : string;
  amount : Js.number;
  description : string;
  category : string;
  date : Js.Date;
  type : TransactionType
}.

Record input := mk_input {
  i_accountId : string;
  i_amount : Js.number;
  i_description : string;
  i_category : string;
  i_date : Js.Date;
  i_type : TransactionType
}.

Record partial := mk_partial {
  p_id : option string;
  p_accountId : option string;
  p_amount : option Js.number;
  p_description : option string;
  p_category : option string;
  p_date : option Js.Date;
  p_type : option TransactionType
}.

Definition with_id (transaction : input) (uuid : string) : t :=
  mk uuid (i_accountId transaction) (i_amount transaction)
     (i_description transaction) (i_category transaction)
     (i_date transaction) (i_type transaction).

Definition merge (transaction : t) (updates : partial) : t :=
  mk (Js.spread (id transaction) (p_id updates))
     (Js.spread (accountId transaction) (p_accountId updates))
     (Js.spread (amount transaction) (p_amount updates))
     (Js.spread (description transaction) (p_description updates))
     (Js.spread (category transaction) (p_category updates))
     (Js.spread (date transaction) (p_date updates))
     (Js.spread (type transaction) (p_type updates)).
End Transaction.

Module Budget.
Record t := mk {
  id : string;
  category : string;
  limit : Js.number;
  spent : Js.number;
  period : BudgetPeriod
}.

Record input := mk_input {
  i_category : string;
  i_limit : Js.number;
  i_spent : Js.number;
  i_period : BudgetPeriod
}.

Record partial := mk_partial {
  p_id : option string;
  p_category : option string;
  p_limit : option Js.number;
  p_spent : option Js.number;
  p_period : option BudgetPeriod
}.

Definition with_id (budget : input) (uuid : string) : t :=
  mk uuid (i_category budget) (i_limit budget) (i_spent budget)
     (i_period budget).

Definition merge (budget : t) (updates : partial) : t :=
  mk (Js.spread (id budget) (p_id updates))
     (Js.spread (category budget) (p_category updates))
     (Js.spread (limit budget) (p_limit updates))
     (Js.spread (spent budget) (p_spent updates))
     (Js.spread (period budget) (p_period updates)).
End Budget.

(** The data part of [PortfolioState]. *)
Record PortfolioState := mkState {
  accounts : list Account.t;
  transactions : list Transaction.t;
  budgets : list Budget.t
}.

(** [set (state => ({ accounts: v }))] and its siblings: zustand merges the
    returned partial state over the current one. *)
Definition set_accounts (v : list Account.t) (state : PortfolioState) :=
  mkState v (transactions state) (budgets state).
Definition set_transactions (v : list Transaction.t) (state : PortfolioState) :=
  mkState (accounts state) v (budgets state).
Definition set_budgets (v : list Budget.t) (state : PortfolioState) :=
  mkState (accounts state) (transactions state) v.

(** ** Actions *)

(** The identifier returned by [crypto.randomUUID ()] is the argument
    [uuid] of the three [add] actions. *)

Definition addAccount (uuid : string) (account : Account.input)
    (state : PortfolioState) : PortfolioState :=
  set_accounts (accounts state ++ [Account.with_id account uuid]) state.

Definition updateAccount (id : string) (updates : Account.partial)
    (state : PortfolioState) : PortfolioState :=
  set_accounts
    (map (fun account =>
            if Account.id account === id
            then Account.merge account updates else account)
         (accounts state))
    state.

Definition deleteAccount (id : string) (state : PortfolioState) : PortfolioState :=
  set_accounts
    (filter (fun account => negb (Account.id account === id)) (accounts state))
    state.

Definition addTransaction (uuid : string) (transaction : Transaction.input)
    (state : PortfolioState) : PortfolioState :=
  let newTransaction := Transaction.with_id transaction uuid in
  let updatedAccounts :=
    map (fun account =>
           if Account.id account === Transaction.i_accountId transaction
           then Account.with_balance account
                  (Account.balance account + Transaction.i_amount transaction)%float
           else account)
        (accounts state) in
  mkState updatedAccounts (transactions state ++ [newTransaction])
          (budgets state).

Definition updateTransaction (id : string) (updates : Transaction.partial)
    (state : PortfolioState) : PortfolioState :=
  set_transactions
    (map (fun transaction =>
            if Transaction.id transaction === id
            then Transaction.merge transaction updates else transaction)
         (transactions state))
    state.

Definition deleteTransaction (id : string) (state : PortfolioState) : PortfolioState :=
  set_transactions
    (filter (fun transaction => negb (Transaction.id transaction === id))
            (transactions state))
    state.

Definition addBudget (uuid : string) (budget : Budget.input)
    (state : PortfolioState) : PortfolioState :=
  set_budgets (budgets state ++ [Budget.with_id budget uuid]) state.

Definition updateBudget (id : string) (updates : Budget.partial)
    (state : PortfolioState) : PortfolioState :=
  set_budgets
    (map (fun budget =>
            if Budget.id budget === id
            then Budget.merge budget updates else budget)
         (budgets state))
    state.

Definition deleteBudget (id : string) (state : PortfolioState) : PortfolioState :=
  set_budgets
    (filter (fun budget => negb (Budget.id budget === id)) (budgets state))
    state.

(** ** Queries *)

Definition getTotalBalance (state : PortfolioState) : Js.number :=
  fold_left (fun total account => (total + Account.balance account)%float)
            (accounts state) 0%float.

Definition getAccountBalance (accountId : string) (state : PortfolioState) : Js.number :=
  let account := find (fun acc => Account.id acc === accountId) (accounts state) in
  Js.opt_or account Account.balance 0%float.

Definition getTransactionsByAccount (accountId : string) (state : PortfolioState)
    : list Transaction.t :=
  filter (fun transaction => Transaction.accountId transaction === accountId)
         (transactions state).

(** ** Date arithmetic

    The [Date] methods are the platform's.  They are embedded from their
    definition in ECMA-262 (section "Date Objects"): a time value is split
    into a day number and a time within the day, a day number into year,
    month and day of the month of the proleptic Gregorian calendar.  The
    offset of the local time zone is the platform's too, and changes with
    the time in a zone with daylight saving: it is a parameter, [Zone]. *)

Module EcmaDate.

Definition msPerDay : Z := 86400000.
Definition msPerHour : Z := 3600000.
Definition msPerMinute : Z := 60000.
Definition msPerSecond : Z := 1000.
Definition maxTime : Z := 8640000000000000.

Definition Day (t : Z) : Z := t / msPerDay.
Definition TimeWithinDay (t : Z) : Z := t mod msPerDay.

Definition DaysInYear (y : Z) : Z :=
  if negb (y mod 4 =? 0) then 365
  else if negb (y mod 100 =? 0) then 366
  else if negb (y mod 400 =? 0) then 365
  else 366.

(** 1 for a leap year, 0 otherwise. *)
Definition LeapYear (y : Z) : Z := if DaysInYear y =? 366 then 1 else 0.

Definition DayFromYear (y : Z) : Z :=
  365 * (y - 1970) + (y - 1969) / 4 - (y - 1901) / 100 + (y - 1601) / 400.

Definition TimeFromYear (y : Z) : Z := msPerDay * DayFromYear y.

(** The largest [y] with [TimeFromYear y <= t]: an estimate from the mean
    length of a year, corrected by at most one year either way (see
    [YearFromTime_spec] and [YearFromTime_largest]). *)
Definition YearFromTime (t : Z) : Z :=
  let d := Day t in
  let y := 1970 + (400 * d) / 146097 in
  if d <? DayFromYear y then y - 1
  else if DayFromYear (y + 1) <=? d then y + 1
  else y.

Definition InLeapYear (t : Z) : Z := LeapYear (YearFromTime t).

Definition DayWithinYear (t : Z) : Z := Day t - DayFromYear (YearFromTime t).

Definition MonthFromTime (t : Z) : Z :=
  let d := DayWithinYear t in
  let leap := InLeapYear t in
  if d <? 31 then 0
  else if d <? 59 + leap then 1
  else if d <? 90 + leap then 2
  else if d <? 120 + leap then 3
  else if d <? 151 + leap then 4
  else if d <? 181 + leap then 5
  else if d <? 212 + leap then 6
  else if d <? 243 + leap then 7
  else if d <? 273 + leap then 8
  else if d <? 304 + leap then 9
  else if d <? 334 + leap then 10
  else 11.

Definition DateFromTime (t : Z) : Z :=
  let d := DayWithinYear t in
  let leap := InLeapYear t in
  match MonthFromTime t with
  | 0 => d + 1
  | 1 => d - 30
  | 2 => d - 58 - leap
  | 3 => d - 89 - leap
  | 4 => d - 119 - leap
  | 5 => d - 150 - leap
  | 6 => d - 180 - leap
  | 7 => d - 211 - leap
  | 8 => d - 242 - leap
  | 9 => d - 272 - leap
  | 10 => d - 303 - leap
  | _ => d - 333 - leap
  end.

(** Days of the year before the first of month [mn] (0 to 11), [leap]
    being 1 in a leap year and 0 otherwise. *)
Definition DaysBeforeMonth (mn leap : Z) : Z :=
  match mn with
  | 0 => 0
  | 1 => 31
  | 2 => 59 + leap
  | 3 => 90 + leap
  | 4 => 120 + leap
  | 5 => 151 + leap
  | 6 => 181 + leap
  | 7 => 212 + leap
  | 8 => 243 + leap
  | 9 => 273 + leap
  | 10 => 304 + leap
  | _ => 334 + leap
  end.

(** [MakeDay]: the day number of the first of month [mn] of year [ym],
    plus [date - 1]; months outside 0 to 11 carry into the year. *)
Definition MakeDay (year month date : Z) : Z :=
  let ym := year + month / 12 in
  let mn := month mod 12 in
  DayFromYear ym + DaysBeforeMonth mn (LeapYear ym) + date - 1.

Definition MakeDate (day time : Z) : Z := day * msPerDay + time.

Definition TimeClip (t : Z) : Js.Date :=
  if Z.abs t <=? maxTime then Some t else None.

(** The local time zone adjustment of ECMA-262, in milliseconds:
    [LocalTZA (t, true)], the offset in force at the UTC time value [t],
    and [LocalTZA (t, false)], the offset in force at the local time value
    [t]. *)
Record Zone := mkZone {
  offsetAtUTC : Z -> Z;
  offsetAtLocal : Z -> Z
}.

(** A zone whose offset never changes. *)
Definition fixedZone (tza : Z) : Zone := mkZone (fun _ => tza) (fun _ => tza).

Section LocalZone.
Variable zone : Zone.

Definition LocalTime (t : Z) : Z := t + offsetAtUTC zone t.
Definition UTC (t : Z) : Z := t - offsetAtLocal zone t.

(** [new Date (year, month, date)] *)
Definition construct (year month date : Z) : Js.Date :=
  let yr := if (0 <=? year) && (year <=? 99) then 1900 + year else year in
  TimeClip (UTC (MakeDate (MakeDay yr month date) 0)).

(** The getters, on a valid date with time value [tv]. *)
Definition getDate (tv : Z) : Z := DateFromTime (LocalTime tv).
Definition getMonth (tv : Z) : Z := MonthFromTime (LocalTime tv).
Definition getFullYear (tv : Z) : Z := YearFromTime (LocalTime tv).

(** The setters, on a valid date with time value [tv]: the new time
    value of the date object. *)
Definition setDate (tv : Z) (dt : Z) : Js.Date :=
  let t := LocalTime tv in
  let newDate :=
    MakeDate (MakeDay (YearFromTime t) (MonthFromTime t) dt)
             (TimeWithinDay t) in
  TimeClip (UTC newDate).

Definition setMonth (tv : Z) (m : Z) : Js.Date :=
  let t := LocalTime tv in
  let newDate :=
    MakeDate (MakeDay (YearFromTime t) m (DateFromTime t))
             (TimeWithinDay t) in
  TimeClip (UTC newDate).

Definition setFullYear (tv : Z) (y : Z) : Js.Date :=
  let t := LocalTime tv in
  let newDate :=
    MakeDate (MakeDay y (MonthFromTime t) (DateFromTime t))
             (TimeWithinDay t) in
  TimeClip (UTC newDate).
End LocalZone.

(** [Date.prototype.toISOString] on a valid date. *)
Definition digit (n : Z) : Ascii.ascii :=
  Ascii.ascii_of_nat (48 + Z.to_nat (n mod 10)).

Fixpoint pad (width : nat) (n : Z) : string :=
  match width with
  | O => ""
  | S w => pad w (n / 10) ++ String (digit n) ""
  end.

Definition toISOString (t : Z) : string :=
  let y := YearFromTime t in
  let year :=
    if (0 <=? y) && (y <=? 9999) then pad 4 y
    else (if y <? 0 then "-" else "+") ++ pad 6 (Z.abs y) in
  year ++ "-" ++ pad 2 (MonthFromTime t + 1) ++ "-" ++ pad 2 (DateFromTime t)
    ++ "T" ++ pad 2 (t / msPerHour mod 24)
    ++ ":" ++ pad 2 (t / msPerMinute mod 60)
    ++ ":" ++ pad 2 (t / msPerSecond mod 60)
    ++ "." ++ pad 3 (t mod msPerSecond) ++ "Z".

End EcmaDate.

(** ** The category spending query *)

(** The [switch] on [period]: the start of the window.  [now] and
    [startDate] are the time values of the two [new Date ()] of the
    source. *)
Definition windowStart (zone : EcmaDate.Zone) (now startDate : Z)
    (period : string) : Js.Date :=
  if period === "week" then
    EcmaDate.setDate zone startDate (EcmaDate.getDate zone now - 7)
  else if period === "year" then
    EcmaDate.setFullYear zone startDate (EcmaDate.getFullYear zone now - 1)
  else
    EcmaDate.setMonth zone startDate (EcmaDate.getMonth zone now - 1).

(** The transactions kept by the [filter] of [getCategorySpending]. *)
Definition spendingTransactions (startDate : Js.Date) (category : string)
    (transactions : list Transaction.t) : list Transaction.t :=
  filter (fun transaction =>
            (Transaction.category transaction === category)
            && TransactionType_eqb (Transaction.type transaction) expense
            && Js.date_ge (Transaction.date transaction) startDate)
         transactions.

(** The callback of the [reduce] of [getCategorySpending]. *)
Definition addAmount (total : Js.number) (transaction : Transaction.t) : Js.number :=
  (total + PrimFloat.abs (Transaction.amount transaction))%float.

(** [period] is [None] when the argument is omitted: the default parameter
    value ['month'] is used. *)
Definition getCategorySpending (zone : EcmaDate.Zone) (now startDate : Z)
    (category : string) (period : option string) (state : PortfolioState)
    : Js.number :=
  let period := match period with Some p => p | None => "month" end in
  let startDate := windowStart zone now startDate period in
  fold_left addAmount
    (spendingTransactions startDate category (transactions state))
    0%float.

(** ** The initial state *)

Definition initialState (zone : EcmaDate.Zone) : PortfolioState :=
  mkState
    [ Account.mk "1" "Main Checking" checking 5420.50%float "USD";
      Account.mk "2" "Emergency Savings" savings 15000.00%float "USD";
      Account.mk "3" "Investment Portfolio" investment 32450.75%float "USD" ]
    [ Transaction.mk "1" "1" (-89.50)%float "Grocery Store" "Food & Dining"
        (EcmaDate.construct zone 2024 0 15) expense;
      Transaction.mk "2" "1" (-45.00)%float "Gas Station" "Transportation"
        (EcmaDate.construct zone 2024 0 14) expense;
      Transaction.mk "3" "1" 3200.00%float "Salary Deposit" "Income"
        (EcmaDate.construct zone 2024 0 10) income ]
    [ Budget.mk "1" "Food & Dining" 500%float 289.50%float monthly;
      Budget.mk "2" "Transportation" 200%float 145.00%float monthly ].

(** ** Persistence

    The store is wrapped in zustand's [persist] with two options only:
    the storage key and [partialize].  No [storage], reviver or
    [onRehydrateStorage] is given, so the snapshot is written with
    [JSON.stringify] and read back with [JSON.parse], and the parsed
    collections replace those of the initial state.  The values involved
    are embedded as trees; a [Date] object is a leaf of its own kind, since
    it is the one value of the store that [JSON.parse] does not give back. *)

Module Json.

Local Unset Elimination Schemes.
Inductive value :=
| Null
| Num (x : Js.number)
| Str (s : string)
| DateObj (d : Js.Date)
| Arr (items : list value)
| Obj (props : list (string * value)).
Local Set Elimination Schemes.

(** [JSON.parse (JSON.stringify (v))].  A finite number is read back as
    written ([-0] is written ["0"]), NaN and the infinities are written
    [null]; a [Date] is written through [Date.prototype.toJSON], as its
    ISO string when valid and as [null] otherwise, and is read back as
    what was written. *)
(** [v[k]] on an object and [v[n]] on an array. *)
Fixpoint assoc (k : string) (props : list (string * value)) : option value :=
  match props with
  | [] => None
  | (k', v) :: rest => if k' === k then Some v else assoc k rest
  end.

Definition get (k : string) (v : value) : option value :=
  match v with
  | Obj props => assoc k props
  | _ => None
  end.

Definition item (n : nat) (v : value) : option value :=
  match v with
  | Arr items => nth_error items n
  | _ => None
  end.

(** The numbers that [JSON.stringify] writes and [JSON.parse] reads back
    unchanged: the finite ones, [-0] excepted. *)
Definition exact (x : Js.number) : bool :=
  is_finite x && (negb (is_zero x) || PrimFloat.Leibniz.eqb x 0%float).

Fixpoint parse_stringify (v : value) : value :=
  match v with
  | Null => Null
  | Num x =>
      if is_finite x then Num (if is_zero x then 0%float else x) else Null
  | Str s => Str s
  | DateObj (Some t) => Str (EcmaDate.toISOString t)
  | DateObj None => Null
  | Arr items => Arr (map parse_stringify items)
  | Obj props =>
      Obj (map (fun p => (fst p, parse_stringify (snd p))) props)
  end.

End Json.

Definition AccountType_value (t : AccountType) : Json.value :=
  Json.Str match t with
           | checking => "checking"
           | savings => "savings"
           | investment => "investment"
           | credit => "credit"
           end.

Definition TransactionType_value (t : TransactionType) : Json.value :=
  Json.Str match t with
           | income => "income"
           | expense => "expense"
           | transfer => "transfer"
           end.

Definition BudgetPeriod_value (p : BudgetPeriod) : Json.value :=
  Json.Str match p with
           | monthly => "monthly"
           | weekly => "weekly"
           | yearly => "yearly"
           end.

Definition Account_value (a : Account.t) : Json.value :=
  Json.Obj [ ("id", Json.Str (Account.id a));
             ("name", Json.Str (Account.name a));
             ("type", AccountType_value (Account.type a));
             ("balance", Json.Num (Account.balance a));
             ("currency", Json.Str (Account.currency a)) ].

Definition Transaction_value (t : Transaction.t) : Json.value :=
  Json.Obj [ ("id", Json.Str (Transaction.id t));
             ("accountId", Json.Str (Transaction.accountId t));
             ("amount", Json.Num (Transaction.amount t));
             ("description", Json.Str (Transaction.description t));
             ("category", Json.Str (Transaction.category t));
             ("date", Json.DateObj (Transaction.date t));
             ("type", TransactionType_value (Transaction.type t)) ].

Definition Budget_value (b : Budget.t) : Json.value :=
  Json.Obj [ ("id", Json.Str (Budget.id b));
             ("category", Json.Str (Budget.category b));
             ("limit", Json.Num (Budget.limit b));
             ("spent", Json.Num (Budget.spent b));
             ("period", BudgetPeriod_value (Budget.period b)) ].

(** [partialize]: the three collections, without the functions. *)
Definition partialize (state : PortfolioState) : Json.value :=
  Json.Obj [ ("accounts", Json.Arr (map Account_value (accounts state)));
             ("transactions",
               Json.Arr (map Transaction_value (transactions state)));
             ("budgets", Json.Arr (map Budget_value (budgets state))) ].

(** The collections found in the store after the snapshot of [state] has
    been written and read back. *)
Definition rehydrate (state : PortfolioState) : Json.value :=
  Json.parse_stringify (partialize state).

(** ** The window of the category spending, in calendar terms

    What the specification calls "now minus 7 days", "now minus 1 calendar
    year" and "now minus 1 calendar month", written out on time values:
    seven days of [msPerDay] milliseconds; the days from the same day and
    month of the previous year; the days of the calendar month before the
    current one. *)

Module Calendar.
Import EcmaDate.

(** The length in days of month [m] (0 to 11) of year [y]. *)
Definition DaysInMonth (y m : Z) : Z :=
  match m with
  | 1 => 28 + LeapYear y
  | 3 | 5 | 8 | 10 => 30
  | _ => 31
  end.

(** The length of the calendar month before that of local time [t]. *)
Definition previousMonthLength (t : Z) : Z :=
  let y := YearFromTime t in
  let m := MonthFromTime t in
  if m =? 0 then DaysInMonth (y - 1) 11 else DaysInMonth y (m - 1).

(** The days between local time [t] and the same day and month of the
    previous year: the 29th of February, when there is one, lies between
    the two from March on, and in the previous year before. *)
Definition previousYearLength (t : Z) : Z :=
  if MonthFromTime t <=? 1 then DaysInYear (YearFromTime t - 1)
  else DaysInYear (YearFromTime t).

Definition specWindowStart (tza now : Z) (period : option string) : Z :=
  match period with
  | Some p =>
      if p === "week" then now - 7 * msPerDay
      else if p === "year" then now - previousYearLength (now + tza) * msPerDay
      else now - previousMonthLength (now + tza) * msPerDay
  | None => now - previousMonthLength (now + tza) * msPerDay
  end.





(** A zone with daylight saving: the offsets of New York around 10 March
    2024, five hours behind UTC until 07:00 UTC of that day and four hours
    behind from then on.  A local time of the hour left out, 02:00 to
    03:00, is read with the offset in force before the change. *)
Definition newYork2024 : Zone :=
  mkZone
    (fun t => if t <? 1710054000000 then -5 * msPerHour else -4 * msPerHour)
    (fun l => if l <? 1710039600000 then -5 * msPerHour else -4 * msPerHour).

(** The two clock values give the same value to the getter that the
    [switch] reads for [period]: the local day of the month for ["week"],
    the local year for ["year"], the local month otherwise. *)
Definition sameField (zone : Zone) (now startDate : Z) (period : string)
    : Prop :=
  if period === "week" then getDate zone now = getDate zone startDate
  else if period === "year" then
    getFullYear zone now = getFullYear zone startDate
  else getMonth zone now = getMonth zone startDate.

(** The local time at which the window starts: [t] is the local time of
    the second clock value and [dayShift] the local day of the month of
    the first clock value less that of the second.  In the words of the
    specification: 7 days back, one calendar year back, one calendar month
    back. *)
Definition localWindowStart (t dayShift : Z) (period : string) : Z :=
  if period === "week" then t + (dayShift - 7) * msPerDay
  else if period === "year" then t - previousYearLength t * msPerDay
  else t - previousMonthLength t * msPerDay.

(** A transaction counts for [category] in the window starting at [ws]. *)
Definition counts (ws : Z) (category : string) (t : Transaction.t) : bool :=
  (Transaction.category t === category)
  && TransactionType_eqb (Transaction.type t) expense
  && match Transaction.date t with
     | Some d => ws <=? d
     | None => false
     end.
End Calendar.

(** ** Sequences of calls *)

(** A sequence of [addAccount] calls, each with the identifier the
    environment generated for it. *)
Definition addAccounts (calls : list (string * Account.input))
    (state : PortfolioState) : PortfolioState :=
  fold_left (fun st call => addAccount (fst call) (snd call) st) calls state.

(** The sum of a list of numbers, added from left to right starting from
    [0] (floating-point addition is not associative: the order is that of
    the list). *)
Definition sum (l : list Js.number) : Js.number :=
  fold_left (fun total x => (total + x)%float) l 0%float.

(** ** The views

    The computations that the components make over the collections of the
    store: the lists of [components/Transactions.tsx] (the transaction
    list and the dashboard) and the budget status of
    [components/Accounts.tsx].  Formatting and rendering are left out. *)

Module Views.

(** [transaction.type], the string it is at run time. *)
Definition typeName (t : TransactionType) : string :=
  match t with
  | income => "income"
  | expense => "expense"
  | transfer => "transfer"
  end.

(** The comparator of the two [sort] calls,
    [new Date (b.date).getTime () - new Date (a.date).getTime ()]: the
    difference of the time values, [None] for the NaN an invalid date
    gives.  (The difference of two time values may be rounded as a
    [number]; its sign, which is all [sort] uses, is that of the exact
    difference.) *)
Definition byDateDesc (a b : Transaction.t) : option Z :=
  match Transaction.date b, Transaction.date a with
  | Some tb, Some ta => Some (tb - ta)
  | _, _ => None
  end.

(** [Array.prototype.sort] calls the comparator through SortCompare, which
    takes a NaN result as [+0]. *)
Definition sortCompare {A} (comparefn : A -> A -> option Z) (x y : A) : Z :=
  match comparefn x y with
  | Some v => v
  | None => 0
  end.

(** [Array.prototype.sort]: a stable sort, [x] coming after [y] when the
    comparator is positive on [(x, y)].  For a consistent comparator (here:
    when the dates are valid) the result does not depend on the algorithm;
    it is embedded as an insertion sort. *)
Fixpoint insert {A} (comparefn : A -> A -> option Z) (x : A) (l : list A)
    : list A :=
  match l with
  | [] => [x]
  | y :: rest =>
      if 0 <? sortCompare comparefn x y
      then y :: insert comparefn x rest
      else x :: y :: rest
  end.

Definition sort {A} (comparefn : A -> A -> option Z) (l : list A) : list A :=
  fold_right (insert comparefn) [] l.

(** For the statements on sorted lists: [b] is dated no later than [a],
    and [t] has a valid date. *)
Definition notNewer (a b : Transaction.t) : Prop :=
  match Transaction.date a, Transaction.date b with
  | Some ta, Some tb => tb <= ta
  | _, _ => False
  end.

Definition validDate (t : Transaction.t) : Prop := Transaction.date t <> None.

(** [String.prototype.includes] *)
Definition includes (s searchString : string) : bool :=
  match String.index 0 searchString s with
  | Some _ => true
  | None => false
  end.

Section TransactionList.
(** [String.prototype.toLowerCase] is the platform's (it follows the
    Unicode case mappings): a parameter. *)
Variable toLowerCase : string -> string.

(** The callback of the [filter] of the transaction list, for the three
    controls of the view. *)
Definition passes (filterType filterAccount searchTerm : string)
    (transaction : Transaction.t) : bool :=
  if negb (filterType === "all")
     && negb (typeName (Transaction.type transaction) === filterType)
  then false
  else if negb (filterAccount === "all")
          && negb (Transaction.accountId transaction === filterAccount)
  then false
  else if negb (searchTerm === "")
          && negb (includes (toLowerCase (Transaction.description transaction))
                            (toLowerCase searchTerm))
          && negb (includes (toLowerCase (Transaction.category transaction))
                            (toLowerCase searchTerm))
  then false
  else true.

Definition filteredTransactions (filterType filterAccount searchTerm : string)
    (transactions : list Transaction.t) : list Transaction.t :=
  sort byDateDesc
       (filter (passes filterType filterAccount searchTerm) transactions).
End TransactionList.

(** The dashboard sorts [transactions], the array held by the store, in
    place, and shows the first five: the state the store is left in, and
    the list shown. *)
Definition sortInPlace (state : PortfolioState) : PortfolioState :=
  set_transactions (sort byDateDesc (transactions state)) state.

Definition recentTransactions (state : PortfolioState) : list Transaction.t :=
  firstn 5 (transactions (sortInPlace state)).




(** [getBudgetStatus] *)
Definition getBudgetStatus (spent limit : Js.number) : string :=
  let percentage := (spent / limit * 100)%float in
  if (100 <=? percentage)%float then "over"
  else if (80 <=? percentage)%float then "warning"
  else if (60 <=? percentage)%float then "good"
  else "excellent".

End Views.

(* ================================================================= *)
(** * Properties *)

Local Open Scope list_scope.

(** ** Lists *)

Lemma map_fixed {A} (f : A -> A) (l : list A) :
  (forall x, In x l -> f x = x) -> map f l = l.
Proof.
  intros H. induction l as [|x l IH]; simpl; [reflexivity|].
  rewrite H by (left; reflexivity).
  rewrite IH; [reflexivity|]. intros y Hy. apply H. right. exact Hy.
Qed.

Lemma filter_all {A} (p : A -> bool) (l : list A) :
  (forall x, In x l -> p x = true) -> filter p l = l.
Proof.
  intros H. induction l as [|x l IH]; simpl; [reflexivity|].
  rewrite H by (left; reflexivity).
  rewrite IH; [reflexivity|]. intros y Hy. apply H. right. exact Hy.
Qed.

Lemma filter_filter_comm {A} (p q : A -> bool) (l : list A) :
  filter p (filter q l) = filter q (filter p l).
Proof.
  induction l as [|x l IH]; simpl; [reflexivity|].
  destruct (q x) eqn:Hq, (p x) eqn:Hp; simpl; rewrite ?Hq, ?Hp, IH; reflexivity.
Qed.

Lemma fold_left_map {A B C} (f : A -> B -> A) (g : C -> B) (l : list C) (a : A) :
  fold_left f (map g l) a = fold_left (fun acc x => f acc (g x)) l a.
Proof.
  revert a. induction l as [|x l IH]; intros a; simpl; [reflexivity|apply IH].
Qed.

Lemma eqb_neq_false (a b : string) : a <> b -> (a === b) = false.
Proof. apply String.eqb_neq. Qed.

(** ** State *)

Lemma state_eta (s : PortfolioState) :
  mkState (accounts s) (transactions s) (budgets s) = s.
Proof. destruct s; reflexivity. Qed.

Lemma accounts_addAccounts calls s :
  accounts (addAccounts calls s)
  = accounts s ++ map (fun call => Account.with_id (snd call) (fst call)) calls.
Proof.
  unfold addAccounts. revert s.
  induction calls as [|c calls IH]; intros s; simpl.
  - rewrite app_nil_r. reflexivity.
  - rewrite IH. simpl. rewrite <- app_assoc. reflexivity.
Qed.

(** ** Numbers *)

Module Num.
Local Open Scope float_scope.

Lemma SFeqb_refl (s : spec_float) : s <> S754_nan -> SFeqb s s = true.
Proof.
  unfold SFeqb, SFcompare.
  destruct s as [sg|sg| |sg m e]; intros H; try congruence.
  - destruct sg; reflexivity.
  - rewrite Z.compare_refl, Pos.compare_cont_refl. destruct sg; reflexivity.
Qed.

Lemma Prim2SF_zero : Prim2SF 0%float = S754_zero false.
Proof. reflexivity. Qed.

Lemma is_nan_spec (x : float) : is_nan x = true <-> Prim2SF x = S754_nan.
Proof.
  unfold is_nan. rewrite eqb_spec. split.
  - intros H. destruct (Prim2SF x) eqn:E; try reflexivity;
      rewrite SFeqb_refl in H by discriminate; discriminate.
  - intros ->. reflexivity.
Qed.

Lemma is_zero_spec (x : float) :
  is_zero x = true <-> exists s, Prim2SF x = S754_zero s.
Proof.
  unfold is_zero. rewrite eqb_spec. change (Prim2SF zero) with (S754_zero false).
  split.
  - destruct (Prim2SF x) as [s|s| |s m e]; try (destruct s; discriminate).
    + intros _. exists s. reflexivity.
    + discriminate.
  - intros [s ->]. reflexivity.
Qed.

Lemma strict_eq_refl (x : float) : is_nan x = false -> Js.strict_eq x x = true.
Proof.
  unfold Js.strict_eq, is_nan. intros H. apply negb_false_iff in H. exact H.
Qed.

Lemma strict_eq_zero (x : float) : is_zero x = true -> Js.strict_eq 0 x = true.
Proof.
  intros H. apply is_zero_spec in H. destruct H as [s H].
  unfold Js.strict_eq. rewrite eqb_spec, H. reflexivity.
Qed.

(** [x || 0] is [x] up to [===] unless [x] is NaN. *)
Lemma or_zero_strict_eq (x : float) :
  is_nan x = false -> Js.strict_eq (Js.or x 0) x = true.
Proof.
  intros H. unfold Js.or, Js.truthy. rewrite H. simpl.
  destruct (is_zero x) eqn:Hz; simpl.
  - apply strict_eq_zero. exact Hz.
  - apply strict_eq_refl. exact H.
Qed.

Lemma add_zero_l (z x : float) :
  is_zero z = true -> is_zero x = false -> (z + x)%float = x.
Proof.
  intros Hz Hx. apply is_zero_spec in Hz. destruct Hz as [s Hz].
  apply Prim2SF_inj. rewrite add_spec, Hz. unfold SF64add, SFadd.
  destruct (Prim2SF x) as [s'|s'| |s' m e] eqn:E; try reflexivity.
  exfalso. assert (is_zero x = true) by (apply is_zero_spec; eauto). congruence.
Qed.

Lemma add_zero_zero (z x : float) :
  is_zero z = true -> is_zero x = true -> is_zero (z + x) = true.
Proof.
  intros Hz Hx. apply is_zero_spec in Hz, Hx. destruct Hz as [s Hz], Hx as [s' Hx].
  apply is_zero_spec. rewrite add_spec, Hz, Hx. unfold SF64add, SFadd.
  destruct s, s'; eauto.
Qed.

(** The arithmetic behind the balance read back after a transaction:
    unless a NaN is involved, [(b + x) || 0] and [(b || 0) + x] are the
    same number. *)
Lemma or_zero_add (b x : float) :
  is_nan b = false -> is_nan (b + x) = false ->
  Js.strict_eq (Js.or (b + x) 0) (Js.or b 0 + x) = true.
Proof.
  intros Hb Hbx. unfold Js.or at 2. unfold Js.truthy. rewrite Hb. simpl.
  destruct (is_zero b) eqn:Hz; simpl.
  - destruct (is_zero x) eqn:Hx.
    + assert (H1 : is_zero (b + x) = true) by (apply add_zero_zero; assumption).
      assert (H2 : is_zero (0 + x) = true) by (apply add_zero_zero; [reflexivity|assumption]).
      unfold Js.or, Js.truthy. rewrite H1, orb_true_r. simpl.
      apply strict_eq_zero. exact H2.
    + rewrite (add_zero_l b x Hz Hx) in *.
      rewrite (add_zero_l 0 x eq_refl Hx).
      apply or_zero_strict_eq. exact Hbx.
  - apply or_zero_strict_eq. exact Hbx.
Qed.
End Num.

(** ** Calendar *)

Module DateFacts.
Import EcmaDate Calendar.

Ltac divmod := Z.div_mod_to_equations; lia.

Lemma DaysInYear_LeapYear y : DaysInYear y = 365 + LeapYear y.
Proof.
  unfold LeapYear, DaysInYear.
  destruct (y mod 4 =? 0), (y mod 100 =? 0), (y mod 400 =? 0); reflexivity.
Qed.

Lemma LeapYear_cases y : LeapYear y = 0 \/ LeapYear y = 1.
Proof. unfold LeapYear. destruct (DaysInYear y =? 366); auto. Qed.

Lemma DayFromYear_succ y : DayFromYear (y + 1) = DayFromYear y + DaysInYear y.
Proof.
  unfold DayFromYear, DaysInYear.
  destruct (Z.eqb_spec (y mod 4) 0), (Z.eqb_spec (y mod 100) 0),
    (Z.eqb_spec (y mod 400) 0); cbn [negb]; divmod.
Qed.

Lemma DayFromYear_pred y : DayFromYear (y - 1) = DayFromYear y - DaysInYear (y - 1).
Proof.
  pose proof (DayFromYear_succ (y - 1)) as H.
  replace (y - 1 + 1) with y in H by lia. lia.
Qed.

Lemma YearFromTime_spec t :
  DayFromYear (YearFromTime t) <= Day t < DayFromYear (YearFromTime t + 1).
Proof.
  unfold YearFromTime.
  set (d := Day t).
  set (y := 1970 + 400 * d / 146097).
  destruct (Z.ltb_spec d (DayFromYear y)) as [H1|H1].
  - replace (y - 1 + 1) with y by lia. split; [|exact H1].
    clear H1. subst y. unfold DayFromYear. divmod.
  - destruct (Z.leb_spec (DayFromYear (y + 1)) d) as [H2|H2].
    + split; [exact H2|]. clear H1 H2. subst y. unfold DayFromYear. divmod.
    + split; assumption.
Qed.

Lemma DayFromYear_lt y y' : y < y' -> DayFromYear y < DayFromYear y'.
Proof.
  intros H. replace y' with (y + 1 + (y' - y - 1)) by lia.
  assert (Hk : 0 <= y' - y - 1) by lia.
  generalize (y' - y - 1) Hk. clear H Hk y'.
  apply natlike_ind.
  - rewrite Z.add_0_r, DayFromYear_succ. pose proof (DaysInYear_LeapYear y).
    pose proof (LeapYear_cases y). lia.
  - intros k Hk IH. replace (y + 1 + Z.succ k) with (y + 1 + k + 1) by lia.
    rewrite DayFromYear_succ. pose proof (DaysInYear_LeapYear (y + 1 + k)).
    pose proof (LeapYear_cases (y + 1 + k)). lia.
Qed.

Lemma DayFromYear_le_inv y y' : DayFromYear y <= DayFromYear y' -> y <= y'.
Proof.
  intros H. destruct (Z.le_gt_cases y y') as [|Hlt]; [assumption|].
  apply DayFromYear_lt in Hlt. lia.
Qed.

(** [YearFromTime t] is the largest year that starts at or before [t]. *)
Lemma YearFromTime_largest t y :
  TimeFromYear y <= t -> y <= YearFromTime t.
Proof.
  intros H. pose proof (YearFromTime_spec t) as [_ Hs].
  assert (Hd : DayFromYear y <= Day t).
  { unfold TimeFromYear, Day, msPerDay in *. divmod. }
  assert (DayFromYear y < DayFromYear (YearFromTime t + 1)) by lia.
  destruct (Z.le_gt_cases y (YearFromTime t)) as [|Hgt]; [assumption|].
  assert (DayFromYear (YearFromTime t + 1) <= DayFromYear y).
  { destruct (Z.eq_dec y (YearFromTime t + 1)) as [->|]; [lia|].
    apply Z.lt_le_incl, DayFromYear_lt. lia. }
  lia.
Qed.

Lemma YearFromTime_starts t : TimeFromYear (YearFromTime t) <= t.
Proof.
  pose proof (YearFromTime_spec t) as [Hs _].
  unfold TimeFromYear, Day, msPerDay in *. divmod.
Qed.

Lemma DayWithinYear_range t :
  0 <= DayWithinYear t < 365 + InLeapYear t.
Proof.
  unfold DayWithinYear.
  pose proof (YearFromTime_spec t) as H.
  rewrite DayFromYear_succ, DaysInYear_LeapYear in H. unfold InLeapYear. lia.
Qed.

Lemma MonthFromTime_range t : 0 <= MonthFromTime t <= 11.
Proof.
  unfold MonthFromTime.
  repeat match goal with |- context [if ?c then _ else _] => destruct c end; lia.
Qed.

Lemma MakeDay_in_year y m d :
  0 <= m <= 11 ->
  MakeDay y m d = DayFromYear y + DaysBeforeMonth m (LeapYear y) + d - 1.
Proof.
  intros H. unfold MakeDay.
  rewrite Z.div_small, Z.mod_small, Z.add_0_r by lia. reflexivity.
Qed.

(** The calendar fields of a time value give back its day number. *)
Lemma MakeDay_fields t (k : Z) :
  MakeDay (YearFromTime t) (MonthFromTime t) (DateFromTime t + k) = Day t + k.
Proof.
  rewrite MakeDay_in_year by apply MonthFromTime_range.
  pose proof (DayWithinYear_range t) as Hr.
  unfold DateFromTime, MonthFromTime.
  unfold InLeapYear in *.
  pose proof (LeapYear_cases (YearFromTime t)) as Hl.
  unfold DayWithinYear in *.
  set (d := Day t) in *. set (df := DayFromYear (YearFromTime t)) in *.
  set (l := LeapYear (YearFromTime t)) in *.
  repeat match goal with
         | |- context [if ?a <? ?b then _ else _] =>
             destruct (Z.ltb_spec a b)
         end;
    cbn [DaysBeforeMonth]; lia.
Qed.




Lemma DaysBeforeMonth_succ y m :
  0 <= m <= 10 ->
  DaysBeforeMonth (m + 1) (LeapYear y)
  = DaysBeforeMonth m (LeapYear y) + DaysInMonth y m.
Proof.
  intros H.
  assert (Hm : m = 0 \/ m = 1 \/ m = 2 \/ m = 3 \/ m = 4 \/ m = 5 \/ m = 6
               \/ m = 7 \/ m = 8 \/ m = 9 \/ m = 10) by lia.
  destruct Hm as [->|[->|[->|[->|[->|[->|[->|[->|[->|[->| ->]]]]]]]]]];
    match goal with
    | |- DaysBeforeMonth (?a + 1) _ = _ =>
        let v := eval vm_compute in (a + 1) in change (a + 1) with v
    end;
    cbn [DaysBeforeMonth DaysInMonth]; lia.
Qed.





Lemma MakeDate_Day t k : MakeDate (Day t + k) (TimeWithinDay t) = t + k * msPerDay.
Proof. unfold MakeDate, Day, TimeWithinDay, msPerDay. divmod. Qed.

Lemma TimeClip_valid t : - maxTime <= t <= maxTime -> TimeClip t = Some t.
Proof.
  intros H. unfold TimeClip.
  destruct (Z.leb_spec (Z.abs t) maxTime) as [|Hgt]; [reflexivity|lia].
Qed.

Lemma MonthFromTime_cases t :
  let m := MonthFromTime t in
  m = 0 \/ m = 1 \/ m = 2 \/ m = 3 \/ m = 4 \/ m = 5 \/ m = 6 \/ m = 7
  \/ m = 8 \/ m = 9 \/ m = 10 \/ m = 11.
Proof. intros m. pose proof (MonthFromTime_range t). lia. Qed.

Lemma DaysInMonth_range y m : 28 <= DaysInMonth y m <= 31.
Proof.
  unfold DaysInMonth. pose proof (LeapYear_cases y).
  destruct m as [|p|p]; try lia.
  do 4 (try destruct p as [p|p|]); lia.
Qed.

Lemma previousMonthLength_range t : 28 <= previousMonthLength t <= 31.
Proof.
  unfold previousMonthLength.
  destruct (MonthFromTime t =? 0); apply DaysInMonth_range.
Qed.

Lemma previousYearLength_range t : 365 <= previousYearLength t <= 366.
Proof.
  unfold previousYearLength.
  pose proof (DaysInYear_LeapYear (YearFromTime t)).
  pose proof (DaysInYear_LeapYear (YearFromTime t - 1)).
  pose proof (LeapYear_cases (YearFromTime t)).
  pose proof (LeapYear_cases (YearFromTime t - 1)).
  destruct (MonthFromTime t <=? 1); lia.
Qed.

(** One month back: the same day of the month, [previousMonthLength]
    days earlier (the month before January is December of the year
    before). *)
Lemma MakeDay_previous_month t :
  MakeDay (YearFromTime t) (MonthFromTime t - 1) (DateFromTime t)
  = Day t - previousMonthLength t.
Proof.
  pose proof (MakeDay_fields t 0) as Hd. rewrite !Z.add_0_r in Hd.
  rewrite <- Hd. unfold previousMonthLength.
  rewrite (MakeDay_in_year _ (MonthFromTime t)) by apply MonthFromTime_range.
  destruct (MonthFromTime_cases t) as [Hm|[Hm|[Hm|[Hm|[Hm|[Hm|[Hm|[Hm|[Hm|[Hm|[Hm|Hm]]]]]]]]]]];
    rewrite Hm; cbn [Z.eqb Z.sub Z.add Z.opp Z.pos_sub Pos.pred_double Z.succ_double Z.pred_double Z.double];
    try (rewrite MakeDay_in_year by lia; cbn [DaysBeforeMonth DaysInMonth]; lia).
  unfold MakeDay. change (-1 / 12) with (-1). change (-1 mod 12) with 11.
  replace (YearFromTime t + -1) with (YearFromTime t - 1) by lia.
  rewrite (DayFromYear_pred (YearFromTime t)), DaysInYear_LeapYear.
  cbn [DaysBeforeMonth DaysInMonth]. lia.
Qed.

Lemma MakeDay_previous_year t :
  MakeDay (YearFromTime t - 1) (MonthFromTime t) (DateFromTime t)
  = Day t - previousYearLength t.
Proof.
  pose proof (MakeDay_fields t 0) as Hd. rewrite !Z.add_0_r in Hd.
  rewrite <- Hd. unfold previousYearLength.
  rewrite !MakeDay_in_year by apply MonthFromTime_range.
  rewrite (DayFromYear_pred (YearFromTime t)), !DaysInYear_LeapYear.
  destruct (MonthFromTime_cases t) as [Hm|[Hm|[Hm|[Hm|[Hm|[Hm|[Hm|[Hm|[Hm|[Hm|[Hm|Hm]]]]]]]]]]];
    rewrite Hm; cbn [Z.leb Z.compare Pos.compare Pos.compare_cont DaysBeforeMonth]; lia.
Qed.


(** *** One month and one year back, on local time values *)

Lemma previous_month_local t :
  MakeDate (MakeDay (YearFromTime t) (MonthFromTime t - 1) (DateFromTime t))
           (TimeWithinDay t)
  = t - previousMonthLength t * msPerDay.
Proof.
  rewrite MakeDay_previous_month.
  replace (Day t - previousMonthLength t)
    with (Day t + - previousMonthLength t) by lia.
  rewrite MakeDate_Day. lia.
Qed.

Lemma previous_year_local t :
  MakeDate (MakeDay (YearFromTime t - 1) (MonthFromTime t) (DateFromTime t))
           (TimeWithinDay t)
  = t - previousYearLength t * msPerDay.
Proof.
  rewrite MakeDay_previous_year.
  replace (Day t - previousYearLength t)
    with (Day t + - previousYearLength t) by lia.
  rewrite MakeDate_Day. lia.
Qed.





(** *** The setters, in any zone *)

Section AnyZone.
Variable zone : Zone.

Lemma setDate_local tv dt :
  setDate zone tv dt
  = TimeClip (UTC zone (LocalTime zone tv + (dt - getDate zone tv) * msPerDay)).
Proof.
  unfold setDate, getDate.
  replace dt with (DateFromTime (LocalTime zone tv)
                   + (dt - DateFromTime (LocalTime zone tv))) at 1 by lia.
  rewrite MakeDay_fields, MakeDate_Day. reflexivity.
Qed.

Lemma setMonth_local tv :
  setMonth zone tv (getMonth zone tv - 1)
  = TimeClip (UTC zone (LocalTime zone tv
                        - previousMonthLength (LocalTime zone tv) * msPerDay)).
Proof. unfold setMonth, getMonth. rewrite previous_month_local. reflexivity. Qed.

Lemma setFullYear_local tv :
  setFullYear zone tv (getFullYear zone tv - 1)
  = TimeClip (UTC zone (LocalTime zone tv
                        - previousYearLength (LocalTime zone tv) * msPerDay)).
Proof.
  unfold setFullYear, getFullYear. rewrite previous_year_local. reflexivity.
Qed.

(** The instant of a local time [k] milliseconds from that of [tv], when
    the offset in force there is the one in force at [tv]. *)
Lemma UTC_same_offset tv k :
  offsetAtLocal zone (LocalTime zone tv + k) = offsetAtUTC zone tv ->
  - maxTime <= tv + k <= maxTime ->
  TimeClip (UTC zone (LocalTime zone tv + k)) = Some (tv + k).
Proof.
  intros Ho Hr. unfold UTC. rewrite Ho. unfold LocalTime.
  replace (tv + offsetAtUTC zone tv + k - offsetAtUTC zone tv) with (tv + k)
    by lia.
  apply TimeClip_valid. exact Hr.
Qed.

End AnyZone.

(** *** The setters, in a zone with a constant offset *)

Section Window.
Variables tza now : Z.
Hypothesis clock : 0 <= now <= maxTime.

Lemma fixedZone_offset k :
  offsetAtLocal (fixedZone tza) (LocalTime (fixedZone tza) now + k)
  = offsetAtUTC (fixedZone tza) now.
Proof. reflexivity. Qed.

Lemma LocalTime_fixedZone t : LocalTime (fixedZone tza) t = t + tza.
Proof. reflexivity. Qed.

Lemma setDate_week :
  setDate (fixedZone tza) now (getDate (fixedZone tza) now - 7)
  = Some (now - 7 * msPerDay).
Proof.
  rewrite setDate_local.
  replace ((getDate (fixedZone tza) now - 7 - getDate (fixedZone tza) now)
           * msPerDay) with (- (7 * msPerDay)) by lia.
  rewrite UTC_same_offset; [f_equal; lia|apply fixedZone_offset|].
  unfold maxTime, msPerDay in *. lia.
Qed.

Lemma setMonth_previous :
  setMonth (fixedZone tza) now (getMonth (fixedZone tza) now - 1)
  = Some (now - previousMonthLength (now + tza) * msPerDay).
Proof.
  rewrite setMonth_local, LocalTime_fixedZone.
  pose proof (previousMonthLength_range (now + tza)).
  rewrite <- LocalTime_fixedZone.
  replace (LocalTime (fixedZone tza) now
           - previousMonthLength (LocalTime (fixedZone tza) now) * msPerDay)
    with (LocalTime (fixedZone tza) now
          + - (previousMonthLength (LocalTime (fixedZone tza) now) * msPerDay))
    by lia.
  rewrite UTC_same_offset; [rewrite LocalTime_fixedZone; f_equal; lia
                           |apply fixedZone_offset|].
  rewrite LocalTime_fixedZone. unfold maxTime, msPerDay in *. lia.
Qed.

Lemma setFullYear_previous :
  setFullYear (fixedZone tza) now (getFullYear (fixedZone tza) now - 1)
  = Some (now - previousYearLength (now + tza) * msPerDay).
Proof.
  rewrite setFullYear_local, LocalTime_fixedZone.
  pose proof (previousYearLength_range (now + tza)).
  rewrite <- LocalTime_fixedZone.
  replace (LocalTime (fixedZone tza) now
           - previousYearLength (LocalTime (fixedZone tza) now) * msPerDay)
    with (LocalTime (fixedZone tza) now
          + - (previousYearLength (LocalTime (fixedZone tza) now) * msPerDay))
    by lia.
  rewrite UTC_same_offset; [rewrite LocalTime_fixedZone; f_equal; lia
                           |apply fixedZone_offset|].
  rewrite LocalTime_fixedZone. unfold maxTime, msPerDay in *. lia.
Qed.
End Window.
End DateFacts.

(** ** Accounts and balances *)

Lemma find_map_same {A} (p : A -> bool) (f : A -> A) (l : list A) :
  (forall x, p (f x) = p x) -> find p (map f l) = option_map f (find p l).
Proof.
  intros H. induction l as [|x l IH]; simpl; [reflexivity|].
  rewrite H. destruct (p x); [reflexivity|exact IH].
Qed.

Lemma find_none_iff {A} (p : A -> bool) (l : list A) :
  find p l = None <-> forall x, In x l -> p x = false.
Proof.
  split.
  - intros H x Hx. exact (find_none p l H x Hx).
  - intros H. induction l as [|x l IH]; simpl; [reflexivity|].
    rewrite H by (left; reflexivity). apply IH. intros y Hy. apply H. right. exact Hy.
Qed.

Lemma getTotalBalance_sum s :
  getTotalBalance s = sum (map Account.balance (accounts s)).
Proof. unfold getTotalBalance, sum. rewrite fold_left_map. reflexivity. Qed.

(** [getAccountBalance] when no account has the identifier. *)
Lemma getAccountBalance_not_found accountId s :
  (forall a, In a (accounts s) -> Account.id a <> accountId) ->
  getAccountBalance accountId s = 0%float.
Proof.
  intros H. unfold getAccountBalance.
  replace (find _ _) with (@None Account.t); [reflexivity|].
  symmetry. apply find_none_iff. intros a Ha. apply eqb_neq_false, H, Ha.
Qed.

(** [getAccountBalance] when [a] is the first account with the identifier:
    the balance of [a] itself when it is neither zero nor NaN, and a
    number [===] to it whenever it is not NaN. *)
Lemma getAccountBalance_found accountId s a :
  find (fun acc => Account.id acc === accountId) (accounts s) = Some a ->
  (Js.truthy (Account.balance a) = true ->
   getAccountBalance accountId s = Account.balance a)
  /\ (is_nan (Account.balance a) = false ->
      Js.strict_eq (getAccountBalance accountId s) (Account.balance a) = true).
Proof.
  intros Hf. unfold getAccountBalance. rewrite Hf. simpl. split.
  - intros Ht. unfold Js.or. rewrite Ht. reflexivity.
  - apply Num.or_zero_strict_eq.
Qed.

(** What [addTransaction] does to the two collections it touches. *)
Lemma addTransaction_effect uuid tx s :
  let s' := addTransaction uuid tx s in
  transactions s' = transactions s ++ [Transaction.with_id tx uuid]
  /\ List.length (transactions s') = S (List.length (transactions s))
  /\ budgets s' = budgets s
  /\ Forall2
       (fun a a' =>
          if Account.id a === Transaction.i_accountId tx
          then a' = Account.with_balance a
                      (Account.balance a + Transaction.i_amount tx)%float
          else a' = a)
       (accounts s) (accounts s').
Proof.
  simpl. split; [reflexivity|]. split.
  - rewrite length_app. simpl. lia.
  - split; [reflexivity|].
    induction (accounts s) as [|a l IH]; simpl; constructor; [|exact IH].
    destruct (Account.id a === Transaction.i_accountId tx); reflexivity.
Qed.

(** The balance read back after [addTransaction]: when the first account
    with the identifier has a balance [b], and neither [b] nor
    [b + amount] is NaN, the balance read after the call is [===] to the
    balance read before plus the amount. *)
Lemma addTransaction_getAccountBalance uuid tx s a :
  let accountId := Transaction.i_accountId tx in
  let amount := Transaction.i_amount tx in
  find (fun acc => Account.id acc === accountId) (accounts s) = Some a ->
  is_nan (Account.balance a) = false ->
  is_nan (Account.balance a + amount)%float = false ->
  Js.strict_eq (getAccountBalance accountId (addTransaction uuid tx s))
               (getAccountBalance accountId s + amount)%float = true.
Proof.
  intros accountId amount Hf Hb Hs.
  unfold getAccountBalance, addTransaction. cbn [accounts].
  rewrite find_map_same.
  - rewrite Hf. cbn [option_map Js.opt_or].
    assert (Hid : (Account.id a === accountId) = true).
    { apply find_some in Hf. exact (proj2 Hf). }
    fold accountId. rewrite Hid. cbn [Account.with_balance Account.balance].
    apply Num.or_zero_add; assumption.
  - intros x. destruct (Account.id x === Transaction.i_accountId tx); reflexivity.
Qed.

(** ** Claims on the actions *)

(** What [addTransaction] does when an account has the identifier of the
    transaction: it appends one transaction, adds the amount to the balance
    of every account with that identifier and changes no other account,
    whatever the balances are; and when neither the balance of the first
    such account nor that balance plus the amount is NaN,
    [getAccountBalance] after the call is [===] to its value before the
    call plus the amount, whatever the sign of the amount. *)
Theorem addTransaction_adds_to_balance
    (uuid : string) (tx : Transaction.input) (s : PortfolioState)
    (a : Account.t) :
  let accountId := Transaction.i_accountId tx in
  let amount := Transaction.i_amount tx in
  let s' := addTransaction uuid tx s in
  transactions s' = transactions s ++ [Transaction.with_id tx uuid]
  /\ List.length (transactions s') = S (List.length (transactions s))
  /\ Forall2
       (fun old new =>
          if Account.id old === accountId
          then new = Account.with_balance old (Account.balance old + amount)%float
          else new = old)
       (accounts s) (accounts s')
  /\ (find (fun acc => Account.id acc === accountId) (accounts s) = Some a ->
      is_nan (Account.balance a) = false ->
      is_nan (Account.balance a + amount)%float = false ->
      Js.strict_eq (getAccountBalance accountId s')
        (getAccountBalance accountId s + amount)%float = true).
Proof.
  intros accountId amount s'.
  destruct (addTransaction_effect uuid tx s) as (Ht & Hl & _ & Ha).
  split; [exact Ht|]. split; [exact Hl|]. split; [exact Ha|].
  intros Hf Hb Hs.
  apply (addTransaction_getAccountBalance uuid tx s a); assumption.
Qed.

Lemma addTransaction_adds_to_balance_witness :
  let tx :=
    Transaction.mk_input "1" (-89.50)%float "Grocery Store" "Food & Dining"
      (Some 1762041600000) expense in
  Js.strict_eq
    (getAccountBalance "1" (addTransaction "t-1" tx (initialState (EcmaDate.fixedZone 0))))
    (getAccountBalance "1" (initialState (EcmaDate.fixedZone 0)) + -89.50)%float = true.
Proof.
  intros tx.
  apply (addTransaction_adds_to_balance "t-1" tx (initialState (EcmaDate.fixedZone 0))
           (Account.mk "1" "Main Checking" checking 5420.50%float "USD")).
  - reflexivity.
  - reflexivity.
  - reflexivity.
Defined.

(** C1. For an account added with a NaN balance and a transaction of
    amount 1 on that account, [addTransaction] appends the transaction and
    stores [NaN + 1] as the balance of the account, but
    [getAccountBalance] reads 0 before the call and 0 after it, which is
    not 0 + 1: the [balance || 0] of [getAccountBalance] replaces the NaN
    balance by 0 on both reads.  (When neither the balance nor the balance
    plus the amount is NaN the value read after the call is the value read
    before plus the amount: [addTransaction_adds_to_balance].) *)
Theorem addTransaction_nan_balance :
  let s :=
    addAccount "u-1" (Account.mk_input "Main Checking" checking nan "USD")
      (mkState [] [] []) in
  let tx :=
    Transaction.mk_input "u-1" 1%float "Refund" "Income" (Some 0) income in
  let s' := addTransaction "u-2" tx s in
  (exists a, In a (accounts s) /\ Account.id a = Transaction.i_accountId tx)
  /\ transactions s' = transactions s ++ [Transaction.with_id tx "u-2"]
  /\ map Account.balance (accounts s') = [(nan + 1)%float]
  /\ getAccountBalance "u-1" s = 0%float
  /\ getAccountBalance "u-1" s' = 0%float
  /\ (getAccountBalance "u-1" s + Transaction.i_amount tx)%float = 1%float
  /\ getAccountBalance "u-1" s'
     <> (getAccountBalance "u-1" s + Transaction.i_amount tx)%float
  /\ Js.strict_eq (getAccountBalance "u-1" s')
       (getAccountBalance "u-1" s + Transaction.i_amount tx)%float = false.
Proof.
  cbv zeta. split.
  - eexists. split; [left; reflexivity|reflexivity].
  - vm_compute. repeat split; try reflexivity.
    intros H. assert (Hz : is_zero 0%float = is_zero 1%float) by (rewrite H; reflexivity).
    vm_compute in Hz. discriminate.
Qed.

(** The scenario of the specification: 5420.50 less 89.50 is 5331.00. *)
Example addTransaction_scenario :
  getAccountBalance "1"
    (addTransaction "t-1"
       (Transaction.mk_input "1" (-89.50)%float "Grocery Store"
          "Food & Dining" (Some 1762041600000) expense)
       (initialState (EcmaDate.fixedZone 0)))
  = 5331.00%float.
Proof. vm_compute. reflexivity. Qed.

(** C8. For an account added with a NaN balance, [getAccountBalance]
    with the identifier of that account returns 0 and not the balance of
    the account: [balance || 0] falls back to 0 for every falsy balance,
    NaN included, and not only when no account is found.  (For an account
    whose balance is not NaN the balance is returned, up to the sign of
    zero, and 0 is returned when no account has the identifier:
    [getAccountBalance_found], [getAccountBalance_not_found].) *)
Theorem getAccountBalance_nan :
  let s :=
    addAccount "u-1" (Account.mk_input "Main Checking" checking nan "USD")
      (mkState [] [] []) in
  let a := Account.mk "u-1" "Main Checking" checking nan "USD" in
  accounts s = [a]
  /\ find (fun acc => Account.id acc === "u-1") (accounts s) = Some a
  /\ getAccountBalance "u-1" s = 0%float
  /\ Account.balance a = nan
  /\ getAccountBalance "u-1" s <> Account.balance a.
Proof.
  vm_compute. repeat split; try reflexivity.
  intros H. assert (Hn : is_nan 0%float = is_nan nan) by (rewrite H; reflexivity).
  vm_compute in Hn. discriminate.
Qed.

(** C2. [deleteTransaction id] removes the transactions with that
    identifier, and only those, from what [getTransactionsByAccount]
    returns, and leaves the accounts as they are; [updateTransaction]
    leaves the accounts as they are too, whatever fields it changes: no
    balance read by [getAccountBalance] or [getTotalBalance] changes. *)
Theorem transaction_edits_keep_balances
    (s : PortfolioState) (id : string) (updates : Transaction.partial) :
  (forall accountId t,
      In t (getTransactionsByAccount accountId (deleteTransaction id s)) ->
      Transaction.id t <> id)
  /\ (forall accountId,
         getTransactionsByAccount accountId (deleteTransaction id s)
         = filter (fun t => negb (Transaction.id t === id))
                  (getTransactionsByAccount accountId s))
  /\ accounts (deleteTransaction id s) = accounts s
  /\ accounts (updateTransaction id updates s) = accounts s
  /\ (forall accountId,
         getAccountBalance accountId (deleteTransaction id s)
         = getAccountBalance accountId s
         /\ getAccountBalance accountId (updateTransaction id updates s)
            = getAccountBalance accountId s)
  /\ getTotalBalance (deleteTransaction id s) = getTotalBalance s
  /\ getTotalBalance (updateTransaction id updates s) = getTotalBalance s.
Proof.
  split; [|split].
  - intros accountId t Ht. unfold getTransactionsByAccount, deleteTransaction in Ht.
    cbn [transactions set_transactions] in Ht.
    apply filter_In in Ht. destruct Ht as [Ht _].
    apply filter_In in Ht. destruct Ht as [_ Ht].
    apply negb_true_iff in Ht. apply String.eqb_neq. exact Ht.
  - intros accountId. unfold getTransactionsByAccount, deleteTransaction.
    cbn [transactions set_transactions]. apply filter_filter_comm.
  - repeat split; reflexivity.
Qed.

Lemma transaction_edits_keep_balances_witness :
  let s := initialState (EcmaDate.fixedZone 0) in
  let updates :=
    Transaction.mk_partial None (Some "2") (Some 1000%float) None None None
      None in
  map Transaction.id (getTransactionsByAccount "1" (deleteTransaction "1" s))
  = ["2"; "3"]
  /\ getAccountBalance "1" (deleteTransaction "1" s) = 5420.50%float
  /\ getAccountBalance "1" (updateTransaction "1" updates s) = 5420.50%float
  /\ getAccountBalance "2" (updateTransaction "1" updates s) = 15000%float.
Proof.
  intros s updates.
  destruct (transaction_edits_keep_balances s "1" updates)
    as (_ & Hdel & _ & _ & Hbal & _).
  split; [rewrite Hdel; reflexivity|].
  split; [rewrite (proj1 (Hbal "1")); reflexivity|].
  split; [rewrite (proj2 (Hbal "1")); reflexivity|].
  rewrite (proj2 (Hbal "2")); reflexivity.
Defined.



(** C6. An update or a delete with an identifier that no record of its
    collection has returns the state it was given, for each of the six
    actions. *)
Theorem unknown_id_is_noop (s : PortfolioState) (id : string)
    (ua : Account.partial) (ut : Transaction.partial) (ub : Budget.partial) :
  ((forall a, In a (accounts s) -> Account.id a <> id) ->
   updateAccount id ua s = s /\ deleteAccount id s = s)
  /\ ((forall t, In t (transactions s) -> Transaction.id t <> id) ->
      updateTransaction id ut s = s /\ deleteTransaction id s = s)
  /\ ((forall b, In b (budgets s) -> Budget.id b <> id) ->
      updateBudget id ub s = s /\ deleteBudget id s = s).
Proof.
  split; [|split]; intros H; split.
  - unfold updateAccount, set_accounts. rewrite map_fixed; [apply state_eta|].
    intros a Ha. rewrite eqb_neq_false by (apply H; exact Ha). reflexivity.
  - unfold deleteAccount, set_accounts. rewrite filter_all; [apply state_eta|].
    intros a Ha. rewrite eqb_neq_false by (apply H; exact Ha). reflexivity.
  - unfold updateTransaction, set_transactions.
    rewrite map_fixed; [apply state_eta|].
    intros t Ht. rewrite eqb_neq_false by (apply H; exact Ht). reflexivity.
  - unfold deleteTransaction, set_transactions.
    rewrite filter_all; [apply state_eta|].
    intros t Ht. rewrite eqb_neq_false by (apply H; exact Ht). reflexivity.
  - unfold updateBudget, set_budgets. rewrite map_fixed; [apply state_eta|].
    intros b Hb. rewrite eqb_neq_false by (apply H; exact Hb). reflexivity.
  - unfold deleteBudget, set_budgets. rewrite filter_all; [apply state_eta|].
    intros b Hb. rewrite eqb_neq_false by (apply H; exact Hb). reflexivity.
Qed.

Lemma unknown_id_is_noop_witness :
  let s := initialState (EcmaDate.fixedZone 0) in
  let ua := Account.mk_partial None (Some "Renamed") None (Some 1%float) None in
  let ut := Transaction.mk_partial None (Some "2") (Some 7%float) None None None None in
  let ub := Budget.mk_partial None None (Some 0%float) None None in
  (updateAccount "7" ua s = s /\ deleteAccount "7" s = s)
  /\ (updateTransaction "7" ut s = s /\ deleteTransaction "7" s = s)
  /\ (updateBudget "7" ub s = s /\ deleteBudget "7" s = s).
Proof.
  intros s ua ut ub.
  destruct (unknown_id_is_noop s "7" ua ut ub) as (Ha & Ht & Hb).
  split; [|split].
  - apply Ha. simpl. intros a [<-|[<-|[<-|[]]]]; discriminate.
  - apply Ht. simpl. intros t [<-|[<-|[<-|[]]]]; discriminate.
  - apply Hb. simpl. intros b [<-|[<-|[]]]; discriminate.
Defined.

(** C7. [getTotalBalance] is the sum, from left to right and starting from
    0, of the balances of the accounts; it is 0 when there is no account;
    and after any sequence of [addAccount] calls on a state without
    accounts it is the sum of the balances given to the calls. *)
Theorem getTotalBalance_addAccounts :
  (forall s, getTotalBalance s = sum (map Account.balance (accounts s)))
  /\ (forall ts bs, getTotalBalance (mkState [] ts bs) = 0%float)
  /\ (forall calls ts bs,
         getTotalBalance (addAccounts calls (mkState [] ts bs))
         = sum (map (fun call => Account.i_balance (snd call)) calls)).
Proof.
  split; [exact getTotalBalance_sum|]. split; [reflexivity|].
  intros calls ts bs. rewrite getTotalBalance_sum, accounts_addAccounts.
  cbn [accounts app]. rewrite map_map. reflexivity.
Qed.



(** ** The category spending *)

Lemma counts_spec ws category t :
  Calendar.counts ws category t = true
  <-> Transaction.category t = category
      /\ Transaction.type t = expense
      /\ exists d, Transaction.date t = Some d /\ ws <= d.
Proof.
  unfold Calendar.counts. rewrite !andb_true_iff, String.eqb_eq. split.
  - intros [[Hc Ht] Hd]. split; [exact Hc|]. split.
    + destruct (Transaction.type t); try discriminate. reflexivity.
    + destruct (Transaction.date t) as [d|]; [|discriminate].
      exists d. split; [reflexivity|]. apply Z.leb_le. exact Hd.
  - intros (Hc & Ht & d & Hd & Hle). rewrite Ht, Hd. repeat split; auto.
    apply Z.leb_le. exact Hle.
Qed.

(** The [switch] of [getCategorySpending] in a zone with a constant offset,
    when both [new Date ()] give the time value [now]: the window starts
    seven days, one calendar year or one calendar month before [now]. *)
Lemma windowStart_spec tza now period :
  0 <= now <= EcmaDate.maxTime ->
  windowStart (EcmaDate.fixedZone tza) now now
    match period with Some p => p | None => "month" end
  = Some (Calendar.specWindowStart tza now period).
Proof.
  intros H. unfold windowStart, Calendar.specWindowStart.
  destruct period as [p|].
  - destruct (p === "week"); [apply DateFacts.setDate_week; exact H|].
    destruct (p === "year"); [apply DateFacts.setFullYear_previous; exact H|].
    apply DateFacts.setMonth_previous; exact H.
  - cbn. apply DateFacts.setMonth_previous; exact H.
Qed.

Lemma specWindowStart_le tza now period :
  Calendar.specWindowStart tza now period <= now.
Proof.
  unfold Calendar.specWindowStart.
  pose proof (DateFacts.previousMonthLength_range (now + tza)).
  pose proof (DateFacts.previousYearLength_range (now + tza)).
  unfold EcmaDate.msPerDay.
  destruct period as [p|]; [|lia].
  destruct (p === "week"); [lia|]. destruct (p === "year"); lia.
Qed.

(** The [switch] in any zone and for any two clock values: the window
    starts at the instant of the local time [localWindowStart], for
    ["week"] always, and for the other periods when the two clock values
    give the same year (["year"]) or the same month. *)
Lemma windowStart_local zone now startDate p :
  p = "week" \/ Calendar.sameField zone now startDate p ->
  windowStart zone now startDate p
  = EcmaDate.TimeClip
      (EcmaDate.UTC zone
         (Calendar.localWindowStart (EcmaDate.LocalTime zone startDate)
            (EcmaDate.getDate zone now - EcmaDate.getDate zone startDate) p)).
Proof.
  unfold windowStart, Calendar.sameField, Calendar.localWindowStart.
  intros H.
  destruct (String.eqb_spec p "week") as [Hw|Hw].
  - rewrite DateFacts.setDate_local. do 3 f_equal. lia.
  - destruct H as [H|H]; [contradiction|].
    destruct (p === "year").
    + rewrite H. apply DateFacts.setFullYear_local.
    + rewrite H. apply DateFacts.setMonth_local.
Qed.

Lemma localWindowStart_back t p :
  7 * EcmaDate.msPerDay <= t - Calendar.localWindowStart t 0 p
  <= 366 * EcmaDate.msPerDay.
Proof.
  unfold Calendar.localWindowStart.
  pose proof (DateFacts.previousMonthLength_range t).
  pose proof (DateFacts.previousYearLength_range t).
  unfold EcmaDate.msPerDay.
  destruct (p === "week"); [lia|]. destruct (p === "year"); lia.
Qed.

Lemma sameField_dayShift zone now startDate p :
  Calendar.sameField zone now startDate p ->
  Calendar.localWindowStart (EcmaDate.LocalTime zone startDate)
    (EcmaDate.getDate zone now - EcmaDate.getDate zone startDate) p
  = Calendar.localWindowStart (EcmaDate.LocalTime zone startDate) 0 p.
Proof.
  unfold Calendar.sameField, Calendar.localWindowStart.
  destruct (p === "week"); [|reflexivity]. intros ->.
  rewrite Z.sub_diag. reflexivity.
Qed.


(** On 29 February 2024 at noon (zone at UTC) the window of the period
    ["year"] starts on 1 March 2023 at noon, 365 days earlier: 2023 has no
    29th of February. *)
Example windowStart_leap_day :
  let now := 1709208000000 in
  EcmaDate.toISOString now = "2024-02-29T12:00:00.000Z"
  /\ windowStart (EcmaDate.fixedZone 0) now now "year"
     = Some (now - 365 * EcmaDate.msPerDay)
  /\ EcmaDate.toISOString (now - 365 * EcmaDate.msPerDay)
     = "2023-03-01T12:00:00.000Z".
Proof. cbv zeta. repeat split; vm_compute; reflexivity. Qed.

(** With daylight saving between the window start and the clock value:
    on 15 March 2024 at noon in New York (16:00 UTC) the window of the
    default period starts on 15 February at noon in New York, which is
    17:00 UTC, an hour more than 29 days of 24 hours before the clock
    value. *)
Example windowStart_daylight_saving :
  let now := 1710518400000 in
  EcmaDate.toISOString now = "2024-03-15T16:00:00.000Z"
  /\ EcmaDate.toISOString (EcmaDate.LocalTime Calendar.newYork2024 now)
     = "2024-03-15T12:00:00.000Z"
  /\ windowStart Calendar.newYork2024 now now "month" = Some 1708016400000
  /\ EcmaDate.toISOString 1708016400000 = "2024-02-15T17:00:00.000Z"
  /\ EcmaDate.toISOString (EcmaDate.LocalTime Calendar.newYork2024 1708016400000)
     = "2024-02-15T12:00:00.000Z"
  /\ 1708016400000 = now - 29 * EcmaDate.msPerDay + EcmaDate.msPerHour.
Proof. cbv zeta. repeat split; vm_compute; reflexivity. Qed.






(** ** Persistence *)

Lemma exact_parse_stringify x :
  Json.exact x = true -> Json.parse_stringify (Json.Num x) = Json.Num x.
Proof.
  unfold Json.exact. intros H. apply andb_true_iff in H. destruct H as [Hf Hz].
  cbn [Json.parse_stringify]. rewrite Hf.
  destruct (is_zero x); [|reflexivity].
  cbn [negb orb] in Hz. apply FloatAxioms.Leibniz.eqb_spec in Hz.
  rewrite Hz. reflexivity.
Qed.

(** What is read back for an account, a budget and a transaction. *)
Lemma parse_stringify_Account a :
  Json.exact (Account.balance a) = true ->
  Json.parse_stringify (Account_value a) = Account_value a.
Proof.
  intros H. unfold Account_value, AccountType_value.
  cbn [Json.parse_stringify map fst snd].
  fold (Json.parse_stringify (Json.Num (Account.balance a))).
  rewrite exact_parse_stringify by exact H. reflexivity.
Qed.

Lemma parse_stringify_Budget b :
  Json.exact (Budget.limit b) = true ->
  Json.exact (Budget.spent b) = true ->
  Json.parse_stringify (Budget_value b) = Budget_value b.
Proof.
  intros Hl Hs. unfold Budget_value, BudgetPeriod_value.
  cbn [Json.parse_stringify map fst snd].
  fold (Json.parse_stringify (Json.Num (Budget.limit b))).
  fold (Json.parse_stringify (Json.Num (Budget.spent b))).
  rewrite !exact_parse_stringify by assumption. reflexivity.
Qed.

Lemma parse_stringify_Transaction t :
  Json.get "date" (Json.parse_stringify (Transaction_value t))
  = Some match Transaction.date t with
         | Some tv => Json.Str (EcmaDate.toISOString tv)
         | None => Json.Null
         end
  /\ Json.get "date" (Transaction_value t)
     = Some (Json.DateObj (Transaction.date t))
  /\ Json.parse_stringify (Transaction_value t) <> Transaction_value t.
Proof.
  split; [|split].
  - unfold Transaction_value. cbn. destruct (Transaction.date t); reflexivity.
  - reflexivity.
  - unfold Transaction_value. cbn [Json.parse_stringify map fst snd].
    intros H. injection H as _ H. destruct (Transaction.date t); discriminate.
Qed.

(** The snapshot read back differs from the collections written as soon as
    there is one transaction; accounts and budgets whose numbers are
    finite (and not [-0]) are read back as written. *)
Lemma rehydrate_spec s :
  (transactions s <> [] -> rehydrate s <> partialize s)
  /\ (Forall (fun a => Json.exact (Account.balance a) = true) (accounts s) ->
      Json.get "accounts" (rehydrate s) = Json.get "accounts" (partialize s))
  /\ (Forall (fun b => Json.exact (Budget.limit b) = true
                       /\ Json.exact (Budget.spent b) = true) (budgets s) ->
      Json.get "budgets" (rehydrate s) = Json.get "budgets" (partialize s)).
Proof.
  unfold rehydrate, partialize. cbn [Json.parse_stringify map fst snd].
  split; [|split].
  - intros Hne H. injection H as _ H _.
    rewrite map_map in H.
    destruct (transactions s) as [|t l]; [congruence|].
    apply (proj2 (proj2 (parse_stringify_Transaction t))).
    apply (proj1 map_ext_in_iff H). left. reflexivity.
  - intros H. cbn. do 2 f_equal. rewrite map_map.
    apply map_ext_in. intros a Ha. apply parse_stringify_Account.
    rewrite Forall_forall in H. apply H. exact Ha.
  - intros H. cbn. do 2 f_equal. rewrite map_map.
    apply map_ext_in. intros b Hb. rewrite Forall_forall in H.
    apply parse_stringify_Budget; apply (H b Hb).
Qed.

(** C4. Writing the snapshot of the initial state (in a zone at UTC) and
    reading it back does not give the collections back: the accounts and
    the budgets are read back as written, but the [date] of the first
    transaction, the [Date] of time value 1705276800000, is read back as
    the string ["2024-01-15T00:00:00.000Z"]. *)
Theorem rehydrate_initialState :
  let s := initialState (EcmaDate.fixedZone 0) in
  let date_of_first v :=
    match Json.get "transactions" v with
    | Some ts =>
        match Json.item 0 ts with
        | Some t => Json.get "date" t
        | None => None
        end
    | None => None
    end in
  date_of_first (partialize s) = Some (Json.DateObj (Some 1705276800000))
  /\ date_of_first (rehydrate s) = Some (Json.Str "2024-01-15T00:00:00.000Z")
  /\ rehydrate s <> partialize s
  /\ Json.get "accounts" (rehydrate s) = Json.get "accounts" (partialize s)
  /\ Json.get "budgets" (rehydrate s) = Json.get "budgets" (partialize s).
Proof.
  intros s date_of_first. split; [|split; [|split; [|split]]].
  - vm_compute. reflexivity.
  - vm_compute. reflexivity.
  - apply (proj1 (rehydrate_spec s)). discriminate.
  - vm_compute. reflexivity.
  - vm_compute. reflexivity.
Qed.

(* ================================================================= *)
(** * Further properties of the store *)

(** ** Lists, continued *)

Lemma map_update_same {A B} (g : A -> B) (p : A -> bool) (f : A -> A) (l : list A) :
  (forall x, p x = true -> g (f x) = g x) ->
  map g (map (fun x => if p x then f x else x) l) = map g l.
Proof.
  intros H. rewrite map_map. apply map_ext_in. intros x _.
  destruct (p x) eqn:E; [apply H; exact E|reflexivity].
Qed.

Lemma NoDup_map_filter {A B} (g : A -> B) (p : A -> bool) (l : list A) :
  NoDup (map g l) -> NoDup (map g (filter p l)).
Proof.
  induction l as [|x l IH]; simpl; intros H; [constructor|].
  inversion H as [|? ? Hx Hl]; subst.
  destruct (p x); [|apply IH; exact Hl].
  simpl. constructor; [|apply IH; exact Hl].
  intros Hin. apply Hx. apply in_map_iff in Hin. destruct Hin as (y & Hy & Hin).
  apply in_map_iff. exists y. split; [exact Hy|].
  apply filter_In in Hin. exact (proj1 Hin).
Qed.

Lemma NoDup_map_snoc {A B} (g : A -> B) (l : list A) (x : A) :
  ~ In (g x) (map g l) -> NoDup (map g l) -> NoDup (map g (l ++ [x])).
Proof.
  intros Hx Hl. rewrite map_app. simpl.
  apply NoDup_rev in Hl. apply (NoDup_cons (g x)) in Hl.
  - apply NoDup_rev in Hl. simpl in Hl. rewrite rev_involutive in Hl. exact Hl.
  - intros Hin. apply Hx. apply in_rev. exact Hin.
Qed.

Lemma filter_snoc_out {A} (p : A -> bool) (l : list A) (x : A) :
  p x = false -> filter p (l ++ [x]) = filter p l.
Proof. intros H. rewrite filter_app. simpl. rewrite H. apply app_nil_r. Qed.

Lemma filter_snoc_in {A} (p : A -> bool) (l : list A) (x : A) :
  p x = true -> filter p (l ++ [x]) = filter p l ++ [x].
Proof. intros H. rewrite filter_app. simpl. rewrite H. reflexivity. Qed.

Lemma filter_map_same {A} (p : A -> bool) (f : A -> A) (l : list A) :
  (forall x, p (f x) = p x) -> filter p (map f l) = map f (filter p l).
Proof.
  intros H. induction l as [|x l IH]; simpl; [reflexivity|].
  rewrite H. destruct (p x); simpl; rewrite IH; reflexivity.
Qed.

Lemma filter_idempotent {A} (p : A -> bool) (l : list A) :
  filter p (filter p l) = filter p l.
Proof.
  apply filter_all. intros x Hx. apply filter_In in Hx. exact (proj2 Hx).
Qed.

Lemma find_filter_implied {A} (p q : A -> bool) (l : list A) :
  (forall x, p x = true -> q x = true) -> find p (filter q l) = find p l.
Proof.
  intros H. induction l as [|x l IH]; simpl; [reflexivity|].
  destruct (q x) eqn:Hq; simpl.
  - destruct (p x); [reflexivity|exact IH].
  - destruct (p x) eqn:Hp; [|exact IH].
    rewrite (H x Hp) in Hq. discriminate.
Qed.

Lemma fresh_no_match {A} (g : A -> string) (l : list A) (k : string) :
  ~ In k (map g l) -> forall x, In x l -> negb (g x === k) = true.
Proof.
  intros H x Hx. apply negb_true_iff, String.eqb_neq. intros E.
  apply H. rewrite <- E. apply in_map. exact Hx.
Qed.

(** ** Identifiers *)

(** X1. An [add] action with an identifier that no record of its
    collection has keeps the identifiers of the collection pairwise
    distinct; [addTransaction] also leaves the identifiers of the accounts
    as they are. *)
Theorem add_keeps_ids_unique (uuid : string) (s : PortfolioState) :
  (forall account,
      ~ In uuid (map Account.id (accounts s)) ->
      NoDup (map Account.id (accounts s)) ->
      NoDup (map Account.id (accounts (addAccount uuid account s))))
  /\ (forall transaction,
         ~ In uuid (map Transaction.id (transactions s)) ->
         NoDup (map Transaction.id (transactions s)) ->
         NoDup (map Transaction.id
                  (transactions (addTransaction uuid transaction s))))
  /\ (forall transaction,
         map Account.id (accounts (addTransaction uuid transaction s))
         = map Account.id (accounts s))
  /\ (forall budget,
         ~ In uuid (map Budget.id (budgets s)) ->
         NoDup (map Budget.id (budgets s)) ->
         NoDup (map Budget.id (budgets (addBudget uuid budget s)))).
Proof.
  split; [|split; [|split]].
  - intros account Hf Hn. unfold addAccount. cbn [accounts set_accounts].
    apply NoDup_map_snoc; assumption.
  - intros transaction Hf Hn. unfold addTransaction. cbn [transactions].
    apply NoDup_map_snoc; assumption.
  - intros transaction. unfold addTransaction. cbn [accounts].
    apply (map_update_same Account.id
             (fun a => Account.id a === Transaction.i_accountId transaction)).
    reflexivity.
  - intros budget Hf Hn. unfold addBudget. cbn [budgets set_budgets].
    apply NoDup_map_snoc; assumption.
Qed.

Lemma add_keeps_ids_unique_witness :
  let account := Account.mk_input "Travel" savings 10%float "USD" in
  NoDup (map Account.id (accounts (addAccount "u-1" account (initialState (EcmaDate.fixedZone 0))))).
Proof.
  intros account.
  destruct (add_keeps_ids_unique "u-1" (initialState (EcmaDate.fixedZone 0))) as (H & _).
  apply H.
  - simpl. intuition discriminate.
  - repeat constructor; simpl; intuition discriminate.
Defined.

(** X2. An update that does not carry an [id] field leaves the sequence of
    identifiers of its collection as it is, and a delete leaves a
    collection with pairwise distinct identifiers pairwise distinct: no
    update or delete adds a record or, without an [id] field, renames
    one. *)
Theorem edits_keep_ids (id : string) (s : PortfolioState) :
  (forall updates,
      Account.p_id updates = None ->
      map Account.id (accounts (updateAccount id updates s))
      = map Account.id (accounts s))
  /\ (forall updates,
         Transaction.p_id updates = None ->
         map Transaction.id (transactions (updateTransaction id updates s))
         = map Transaction.id (transactions s))
  /\ (forall updates,
         Budget.p_id updates = None ->
         map Budget.id (budgets (updateBudget id updates s))
         = map Budget.id (budgets s))
  /\ (NoDup (map Account.id (accounts s)) ->
      NoDup (map Account.id (accounts (deleteAccount id s))))
  /\ (NoDup (map Transaction.id (transactions s)) ->
      NoDup (map Transaction.id (transactions (deleteTransaction id s))))
  /\ (NoDup (map Budget.id (budgets s)) ->
      NoDup (map Budget.id (budgets (deleteBudget id s)))).
Proof.
  split; [|split; [|split; [|split; [|split]]]].
  - intros updates H. unfold updateAccount. cbn [accounts set_accounts].
    apply (map_update_same Account.id (fun a => Account.id a === id)).
    intros a _. unfold Account.merge. cbn [Account.id]. rewrite H. reflexivity.
  - intros updates H. unfold updateTransaction. cbn [transactions set_transactions].
    apply (map_update_same Transaction.id (fun t => Transaction.id t === id)).
    intros t _. unfold Transaction.merge. cbn [Transaction.id]. rewrite H.
    reflexivity.
  - intros updates H. unfold updateBudget. cbn [budgets set_budgets].
    apply (map_update_same Budget.id (fun b => Budget.id b === id)).
    intros b _. unfold Budget.merge. cbn [Budget.id]. rewrite H. reflexivity.
  - apply NoDup_map_filter.
  - apply NoDup_map_filter.
  - apply NoDup_map_filter.
Qed.

Lemma edits_keep_ids_witness :
  let updates :=
    Account.mk_partial None (Some "Everyday") None (Some 1%float) None in
  map Account.id (accounts (updateAccount "1" updates (initialState (EcmaDate.fixedZone 0))))
  = ["1"; "2"; "3"].
Proof.
  intros updates.
  destruct (edits_keep_ids "1" (initialState (EcmaDate.fixedZone 0))) as (H & _).
  rewrite H; reflexivity.
Defined.

(** ** Deleting *)

(** X3. Deleting the record an [add] action has just appended, under an
    identifier that no older record has, gives back the state before the
    [add] for accounts and budgets.  For a transaction it gives back the
    transactions only: the accounts stay as [addTransaction] left them,
    with the amount added to the balance. *)
Theorem delete_after_add (uuid : string) (s : PortfolioState) :
  (forall account,
      ~ In uuid (map Account.id (accounts s)) ->
      deleteAccount uuid (addAccount uuid account s) = s)
  /\ (forall budget,
         ~ In uuid (map Budget.id (budgets s)) ->
         deleteBudget uuid (addBudget uuid budget s) = s)
  /\ (forall transaction,
         ~ In uuid (map Transaction.id (transactions s)) ->
         deleteTransaction uuid (addTransaction uuid transaction s)
         = set_accounts (accounts (addTransaction uuid transaction s)) s).
Proof.
  split; [|split].
  - intros account H. unfold deleteAccount, addAccount, set_accounts.
    cbn [accounts transactions budgets].
    rewrite filter_snoc_out
      by (cbn [Account.with_id Account.id]; rewrite String.eqb_refl; reflexivity).
    rewrite filter_all by (apply fresh_no_match; exact H). apply state_eta.
  - intros budget H. unfold deleteBudget, addBudget, set_budgets.
    cbn [accounts transactions budgets].
    rewrite filter_snoc_out
      by (cbn [Budget.with_id Budget.id]; rewrite String.eqb_refl; reflexivity).
    rewrite filter_all by (apply fresh_no_match; exact H). apply state_eta.
  - intros transaction H.
    unfold deleteTransaction, addTransaction, set_transactions, set_accounts.
    cbn [accounts transactions budgets].
    rewrite filter_snoc_out
      by (cbn [Transaction.with_id Transaction.id]; rewrite String.eqb_refl;
          reflexivity).
    rewrite filter_all by (apply fresh_no_match; exact H). reflexivity.
Qed.

Lemma delete_after_add_witness :
  let tx :=
    Transaction.mk_input "1" (-89.50)%float "Grocery Store" "Food & Dining"
      (Some 1762041600000) expense in
  let s' := deleteTransaction "u-1" (addTransaction "u-1" tx (initialState (EcmaDate.fixedZone 0))) in
  transactions s' = transactions (initialState (EcmaDate.fixedZone 0))
  /\ getAccountBalance "1" s' = 5331%float.
Proof.
  intros tx s'.
  destruct (delete_after_add "u-1" (initialState (EcmaDate.fixedZone 0))) as (_ & _ & H).
  unfold s'. rewrite H.
  - split; reflexivity.
  - simpl. intuition discriminate.
Defined.

(** X4. After [deleteAccount id] no account has the identifier and
    [getAccountBalance id] is 0; the balance read for any other identifier
    is unchanged; and the transactions are not touched, so those of the
    deleted account are still returned by [getTransactionsByAccount]. *)
Theorem deleteAccount_effect (id : string) (s : PortfolioState) :
  (forall a, In a (accounts (deleteAccount id s)) -> Account.id a <> id)
  /\ getAccountBalance id (deleteAccount id s) = 0%float
  /\ (forall other,
         other <> id ->
         getAccountBalance other (deleteAccount id s)
         = getAccountBalance other s)
  /\ transactions (deleteAccount id s) = transactions s
  /\ getTransactionsByAccount id (deleteAccount id s)
     = getTransactionsByAccount id s.
Proof.
  assert (H : forall a, In a (accounts (deleteAccount id s)) -> Account.id a <> id).
  { intros a Ha. unfold deleteAccount in Ha. cbn [accounts set_accounts] in Ha.
    apply filter_In in Ha. destruct Ha as [_ Ha].
    apply negb_true_iff, String.eqb_neq in Ha. exact Ha. }
  split; [exact H|]. split; [apply getAccountBalance_not_found; exact H|].
  split; [|split; reflexivity].
  intros other Hne. unfold getAccountBalance, deleteAccount.
  cbn [accounts set_accounts]. rewrite find_filter_implied; [reflexivity|].
  intros a Ha. apply String.eqb_eq in Ha. apply negb_true_iff, String.eqb_neq.
  congruence.
Qed.

Lemma deleteAccount_effect_witness :
  getAccountBalance "2" (deleteAccount "1" (initialState (EcmaDate.fixedZone 0))) = 15000%float.
Proof.
  destruct (deleteAccount_effect "1" (initialState (EcmaDate.fixedZone 0))) as (_ & _ & H & _).
  rewrite H; [reflexivity|discriminate].
Defined.

(** X5. A delete is idempotent, and two deletes on one collection give the
    same state in either order. *)
Theorem delete_idempotent_commutes (id id' : string) (s : PortfolioState) :
  deleteAccount id (deleteAccount id s) = deleteAccount id s
  /\ deleteTransaction id (deleteTransaction id s) = deleteTransaction id s
  /\ deleteBudget id (deleteBudget id s) = deleteBudget id s
  /\ deleteAccount id (deleteAccount id' s) = deleteAccount id' (deleteAccount id s)
  /\ deleteTransaction id (deleteTransaction id' s)
     = deleteTransaction id' (deleteTransaction id s)
  /\ deleteBudget id (deleteBudget id' s) = deleteBudget id' (deleteBudget id s).
Proof.
  unfold deleteAccount, deleteTransaction, deleteBudget, set_accounts,
    set_transactions, set_budgets.
  cbn [accounts transactions budgets].
  rewrite !filter_idempotent.
  repeat split; f_equal; apply filter_filter_comm.
Qed.

(** ** Adding a transaction *)

(** X6. [addTransaction] changes the balance read for the account of the
    transaction only: for any other identifier [getAccountBalance] returns
    what it returned before. *)
Theorem addTransaction_other_accounts
    (uuid : string) (tx : Transaction.input) (s : PortfolioState)
    (other : string) :
  other <> Transaction.i_accountId tx ->
  getAccountBalance other (addTransaction uuid tx s)
  = getAccountBalance other s.
Proof.
  intros Hne. unfold getAccountBalance, addTransaction. cbn [accounts].
  rewrite find_map_same.
  - destruct (find (fun acc => Account.id acc === other) (accounts s))
      as [a|] eqn:Hf; [|reflexivity].
    apply find_some in Hf. destruct Hf as [_ Hf]. apply String.eqb_eq in Hf.
    cbn [option_map].
    rewrite eqb_neq_false by congruence. reflexivity.
  - intros x. destruct (Account.id x === Transaction.i_accountId tx); reflexivity.
Qed.

Lemma addTransaction_other_accounts_witness :
  let tx :=
    Transaction.mk_input "1" (-89.50)%float "Grocery Store" "Food & Dining"
      (Some 1762041600000) expense in
  getAccountBalance "2" (addTransaction "u-1" tx (initialState (EcmaDate.fixedZone 0)))
  = getAccountBalance "2" (initialState (EcmaDate.fixedZone 0)).
Proof.
  intros tx. apply addTransaction_other_accounts. discriminate.
Defined.

(** X7. After [addTransaction] the new transaction is the last one that
    [getTransactionsByAccount] returns for its account, after those
    returned before; for any other account the result is unchanged. *)
Theorem getTransactionsByAccount_addTransaction
    (uuid : string) (tx : Transaction.input) (s : PortfolioState) :
  getTransactionsByAccount (Transaction.i_accountId tx) (addTransaction uuid tx s)
  = getTransactionsByAccount (Transaction.i_accountId tx) s
    ++ [Transaction.with_id tx uuid]
  /\ (forall other,
         other <> Transaction.i_accountId tx ->
         getTransactionsByAccount other (addTransaction uuid tx s)
         = getTransactionsByAccount other s).
Proof.
  unfold getTransactionsByAccount, addTransaction. cbn [transactions]. split.
  - apply filter_snoc_in. cbn [Transaction.with_id Transaction.accountId].
    apply String.eqb_refl.
  - intros other Hne. apply filter_snoc_out.
    cbn [Transaction.with_id Transaction.accountId].
    apply eqb_neq_false. congruence.
Qed.

Lemma getTransactionsByAccount_addTransaction_witness :
  let tx :=
    Transaction.mk_input "1" (-89.50)%float "Grocery Store" "Food & Dining"
      (Some 1762041600000) expense in
  getTransactionsByAccount "2" (addTransaction "u-1" tx (initialState (EcmaDate.fixedZone 0))) = [].
Proof.
  intros tx.
  destruct (getTransactionsByAccount_addTransaction "u-1" tx (initialState (EcmaDate.fixedZone 0)))
    as (_ & H).
  rewrite H; [reflexivity|discriminate].
Defined.

(** X8. [deleteAccount] and [addTransaction] give the same state in either
    order: deleting an account before a transaction on it is added, or
    after, leaves the same accounts and the same transactions. *)
Theorem deleteAccount_addTransaction_commute
    (id uuid : string) (tx : Transaction.input) (s : PortfolioState) :
  deleteAccount id (addTransaction uuid tx s)
  = addTransaction uuid tx (deleteAccount id s).
Proof.
  unfold deleteAccount, addTransaction, set_accounts.
  cbn [accounts transactions budgets]. f_equal.
  apply filter_map_same. intros a.
  destruct (Account.id a === Transaction.i_accountId tx); reflexivity.
Qed.

(** ** Updating *)

(** X9. When an account has the identifier, an update without [id] field
    that sets [balance] to [b] makes [getAccountBalance] return [b || 0]
    for that identifier, and what it returned before for any other. *)
Theorem updateAccount_balance
    (id : string) (updates : Account.partial) (b : Js.number)
    (s : PortfolioState) :
  Account.p_id updates = None ->
  Account.p_balance updates = Some b ->
  (exists a, In a (accounts s) /\ Account.id a = id) ->
  getAccountBalance id (updateAccount id updates s) = Js.or b 0%float
  /\ (forall other,
         other <> id ->
         getAccountBalance other (updateAccount id updates s)
         = getAccountBalance other s).
Proof.
  intros Hid Hb (a0 & Hin & Ha0).
  assert (Hkeep : forall k x,
             (Account.id (if Account.id x === id
                          then Account.merge x updates else x) === k)
             = (Account.id x === k)).
  { intros k x. destruct (Account.id x === id); [|reflexivity].
    unfold Account.merge. cbn [Account.id]. rewrite Hid. reflexivity. }
  unfold getAccountBalance, updateAccount. cbn [accounts set_accounts]. split.
  - rewrite (find_map_same (fun acc => Account.id acc === id)) by apply Hkeep.
    destruct (find (fun acc => Account.id acc === id) (accounts s))
      as [a|] eqn:Hf.
    + apply find_some in Hf. destruct Hf as [_ Hf].
      cbn [option_map Js.opt_or]. rewrite Hf.
      unfold Account.merge. cbn [Account.balance]. rewrite Hb. reflexivity.
    + exfalso. apply (find_none _ _ Hf) in Hin.
      rewrite Ha0, String.eqb_refl in Hin. discriminate.
  - intros other Hne.
    rewrite (find_map_same (fun acc => Account.id acc === other)) by apply Hkeep.
    destruct (find (fun acc => Account.id acc === other) (accounts s))
      as [a|] eqn:Hf; [|reflexivity].
    apply find_some in Hf. destruct Hf as [_ Hf]. apply String.eqb_eq in Hf.
    cbn [option_map]. rewrite eqb_neq_false by congruence. reflexivity.
Qed.

Lemma updateAccount_balance_witness :
  let updates := Account.mk_partial None None None (Some 12.5%float) None in
  getAccountBalance "2" (updateAccount "2" updates (initialState (EcmaDate.fixedZone 0)))
  = 12.5%float.
Proof.
  intros updates.
  destruct (updateAccount_balance "2" updates 12.5%float (initialState (EcmaDate.fixedZone 0)))
    as (H & _).
  - reflexivity.
  - reflexivity.
  - eexists. split; [right; left; reflexivity|reflexivity].
  - rewrite H. reflexivity.
Defined.

Lemma spread_idempotent {A} (old : A) (upd : option A) :
  Js.spread (Js.spread old upd) upd = Js.spread old upd.
Proof. destruct upd; reflexivity. Qed.

Lemma map_update_idempotent {A} (p : A -> bool) (f : A -> A) (l : list A) :
  (forall x, f (f x) = f x) ->
  map (fun x => if p x then f x else x) (map (fun x => if p x then f x else x) l)
  = map (fun x => if p x then f x else x) l.
Proof.
  intros Hf. rewrite map_map. apply map_ext. intros x.
  destruct (p x) eqn:E; [|rewrite E; reflexivity].
  destruct (p (f x)); [apply Hf|reflexivity].
Qed.

(** X10. An update applied twice is the update applied once, whatever
    fields it carries: merging the same fields again changes nothing, and
    a record the update has moved to another identifier is no longer
    matched. *)
Theorem update_idempotent
    (id : string) (ua : Account.partial) (ut : Transaction.partial)
    (ub : Budget.partial) (s : PortfolioState) :
  updateAccount id ua (updateAccount id ua s) = updateAccount id ua s
  /\ updateTransaction id ut (updateTransaction id ut s)
     = updateTransaction id ut s
  /\ updateBudget id ub (updateBudget id ub s) = updateBudget id ub s.
Proof.
  split; [|split].
  - unfold updateAccount, set_accounts. cbn [accounts transactions budgets].
    f_equal. apply map_update_idempotent.
    intros a. unfold Account.merge.
    cbn [Account.id Account.name Account.type Account.balance Account.currency].
    rewrite !spread_idempotent. reflexivity.
  - unfold updateTransaction, set_transactions.
    cbn [accounts transactions budgets].
    f_equal. apply map_update_idempotent.
    intros t. unfold Transaction.merge.
    cbn [Transaction.id Transaction.accountId Transaction.amount
         Transaction.description Transaction.category Transaction.date
         Transaction.type].
    rewrite !spread_idempotent. reflexivity.
  - unfold updateBudget, set_budgets. cbn [accounts transactions budgets].
    f_equal. apply map_update_idempotent.
    intros b. unfold Budget.merge.
    cbn [Budget.id Budget.category Budget.limit Budget.spent Budget.period].
    rewrite !spread_idempotent. reflexivity.
Qed.

(** ** The category spending, continued *)

(** X11. Adding a transaction that counts for the category and the window
    (same category, type [expense], a valid date at or after the start of
    the window) adds exactly the absolute value of its amount to
    [getCategorySpending]; adding any other transaction leaves
    [getCategorySpending] as it is.  This holds for any two clock values. *)
Theorem getCategorySpending_addTransaction
    (zone : EcmaDate.Zone) (now startDate : Z) (category : string)
    (period : option string)
    (uuid : string) (tx : Transaction.input) (s : PortfolioState) :
  let ws :=
    windowStart zone now startDate
      match period with Some p => p | None => "month" end in
  getCategorySpending zone now startDate category period
    (addTransaction uuid tx s)
  = if (Transaction.i_category tx === category)
       && TransactionType_eqb (Transaction.i_type tx) expense
       && Js.date_ge (Transaction.i_date tx) ws
    then (getCategorySpending zone now startDate category period s
          + PrimFloat.abs (Transaction.i_amount tx))%float
    else getCategorySpending zone now startDate category period s.
Proof.
  intros ws. unfold getCategorySpending, spendingTransactions, addTransaction.
  cbn [transactions]. fold ws.
  destruct ((Transaction.i_category tx === category)
            && TransactionType_eqb (Transaction.i_type tx) expense
            && Js.date_ge (Transaction.i_date tx) ws) eqn:E.
  - rewrite filter_snoc_in by exact E. rewrite fold_left_app. reflexivity.
  - rewrite filter_snoc_out by exact E. reflexivity.
Qed.

(** X12. The three windows are nested: a transaction counted for ["week"]
    is counted for the default period, and a transaction counted for the
    default period is counted for ["year"]. *)
Theorem windows_nested
    (tza now : Z) (category : string) (s : PortfolioState)
    (t : Transaction.t) :
  0 <= now <= EcmaDate.maxTime ->
  let counted p :=
    In t (spendingTransactions
            (windowStart (EcmaDate.fixedZone tza) now now p) category
            (transactions s)) in
  (counted "week" -> counted "month") /\ (counted "month" -> counted "year").
Proof.
  intros H counted. subst counted. cbv beta.
  rewrite (windowStart_spec tza now (Some "week") H).
  rewrite (windowStart_spec tza now None H).
  rewrite (windowStart_spec tza now (Some "year") H).
  unfold Calendar.specWindowStart. cbn [String.eqb Ascii.eqb Bool.eqb].
  pose proof (DateFacts.previousMonthLength_range (now + tza)) as Hm.
  pose proof (DateFacts.previousYearLength_range (now + tza)) as Hy.
  unfold spendingTransactions.
  assert (Hmono : forall a b, a <= b ->
            In t (filter (Calendar.counts b category) (transactions s)) ->
            In t (filter (Calendar.counts a category) (transactions s))).
  { intros a b Hab Hin. apply filter_In in Hin. destruct Hin as [Hin Hc].
    apply filter_In. split; [exact Hin|].
    apply counts_spec in Hc. destruct Hc as (Hc & Ht & d & Hd & Hle).
    apply counts_spec. split; [exact Hc|]. split; [exact Ht|].
    exists d. split; [exact Hd|lia]. }
  unfold EcmaDate.msPerDay. split; apply Hmono; lia.
Qed.

Lemma windows_nested_witness :
  let now := 1762041600000 in
  let t :=
    Transaction.mk "a" "1" (-12.5)%float "Lunch" "Food & Dining"
      (Some (now - 3 * EcmaDate.msPerDay)) expense in
  In t (spendingTransactions (windowStart (EcmaDate.fixedZone 0) now now "year") "Food & Dining"
          (transactions (mkState [] [t] []))).
Proof.
  intros now t.
  destruct (windows_nested 0 now "Food & Dining" (mkState [] [t] []) t)
    as (Hw & Hm).
  - unfold now, EcmaDate.maxTime. lia.
  - apply Hm, Hw. vm_compute. left. reflexivity.
Defined.

(** X13. The window is measured from the second clock value, the one
    [startDate] is built from.  When the first one, [now], has the same
    local day of the month (for ["week"]), year (for ["year"]) or month
    (for the other periods), and the offset of the zone in force at the
    local time the window starts at is the one in force at [startDate]
    (as it always is in a zone without daylight saving), the window starts
    exactly 7 days, one calendar year or one calendar month of 24-hour
    days before [startDate]. *)
Theorem windowStart_two_reads (zone : EcmaDate.Zone) (now startDate : Z) :
  let t := EcmaDate.LocalTime zone startDate in
  let sameOffset days :=
    EcmaDate.offsetAtLocal zone (t - days * EcmaDate.msPerDay)
    = EcmaDate.offsetAtUTC zone startDate in
  0 <= startDate <= EcmaDate.maxTime ->
  (EcmaDate.getDate zone now = EcmaDate.getDate zone startDate ->
   sameOffset 7 ->
   windowStart zone now startDate "week"
   = Some (startDate - 7 * EcmaDate.msPerDay))
  /\ (EcmaDate.getFullYear zone now = EcmaDate.getFullYear zone startDate ->
      sameOffset (Calendar.previousYearLength t) ->
      windowStart zone now startDate "year"
      = Some (startDate - Calendar.previousYearLength t * EcmaDate.msPerDay))
  /\ (EcmaDate.getMonth zone now = EcmaDate.getMonth zone startDate ->
      sameOffset (Calendar.previousMonthLength t) ->
      forall p, p <> "week" -> p <> "year" ->
      windowStart zone now startDate p
      = Some (startDate - Calendar.previousMonthLength t * EcmaDate.msPerDay)).
Proof.
  intros t sameOffset H.
  assert (Hgen : forall p,
             Calendar.sameField zone now startDate p ->
             EcmaDate.offsetAtLocal zone (Calendar.localWindowStart t 0 p)
             = EcmaDate.offsetAtUTC zone startDate ->
             windowStart zone now startDate p
             = Some (startDate + (Calendar.localWindowStart t 0 p - t))).
  { intros p Hs Ho.
    rewrite (windowStart_local zone now startDate p (or_intror Hs)).
    rewrite (sameField_dayShift zone now startDate p Hs). fold t.
    pose proof (localWindowStart_back t p) as Hb.
    pose proof (DateFacts.UTC_same_offset zone startDate
                  (Calendar.localWindowStart t 0 p - t)) as E.
    replace (EcmaDate.LocalTime zone startDate
             + (Calendar.localWindowStart t 0 p - t))
      with (Calendar.localWindowStart t 0 p) in E by (fold t; lia).
    apply E; [exact Ho|].
    unfold EcmaDate.maxTime, EcmaDate.msPerDay in *. lia. }
  subst sameOffset. cbv beta. split; [|split].
  - intros E Ho. rewrite (Hgen "week").
    + f_equal. unfold Calendar.localWindowStart. cbn [String.eqb Ascii.eqb Bool.eqb].
      lia.
    + exact E.
    + unfold Calendar.localWindowStart. cbn [String.eqb Ascii.eqb Bool.eqb].
      replace (t + (0 - 7) * EcmaDate.msPerDay)
        with (t - 7 * EcmaDate.msPerDay) by lia.
      exact Ho.
  - intros E Ho. rewrite (Hgen "year").
    + f_equal. unfold Calendar.localWindowStart. cbn [String.eqb Ascii.eqb Bool.eqb].
      lia.
    + exact E.
    + exact Ho.
  - intros E Ho p Hw Hy.
    assert (Hl : Calendar.localWindowStart t 0 p
                 = t - Calendar.previousMonthLength t * EcmaDate.msPerDay).
    { unfold Calendar.localWindowStart.
      rewrite (eqb_neq_false _ _ Hw), (eqb_neq_false _ _ Hy). reflexivity. }
    rewrite (Hgen p).
    + f_equal. rewrite Hl. lia.
    + unfold Calendar.sameField.
      rewrite (eqb_neq_false _ _ Hw), (eqb_neq_false _ _ Hy). exact E.
    + rewrite Hl. exact Ho.
Qed.

Lemma windowStart_two_reads_witness :
  windowStart (EcmaDate.fixedZone 0) 1762041600000 1762041600001 "week"
  = Some 1761436800001.
Proof.
  destruct (windowStart_two_reads (EcmaDate.fixedZone 0) 1762041600000
              1762041600001) as (H & _).
  - unfold EcmaDate.maxTime. lia.
  - rewrite H; reflexivity.
Defined.

(** When midnight of the last day of a month falls between the two clock
    values, the window of ["week"] starts after both of them: the day of
    the month of 31 January, less 7, is set on a date of February. *)
Example windowStart_midnight :
  let now := 1706745599999 in
  let startDate := 1706745600000 in
  EcmaDate.toISOString now = "2024-01-31T23:59:59.999Z"
  /\ EcmaDate.toISOString startDate = "2024-02-01T00:00:00.000Z"
  /\ windowStart (EcmaDate.fixedZone 0) now startDate "week" = Some 1708732800000
  /\ EcmaDate.toISOString 1708732800000 = "2024-02-24T00:00:00.000Z".
Proof. cbv zeta. repeat split; vm_compute; reflexivity. Qed.

(** ** Persistence, continued *)

Lemma value_induction (P : Json.value -> Prop) :
  P Json.Null ->
  (forall x, P (Json.Num x)) ->
  (forall s, P (Json.Str s)) ->
  (forall d, P (Json.DateObj d)) ->
  (forall items, Forall P items -> P (Json.Arr items)) ->
  (forall props, Forall (fun p => P (snd p)) props -> P (Json.Obj props)) ->
  forall v, P v.
Proof.
  intros HNull HNum HStr HDate HArr HObj.
  fix IH 1. intros [ |x|s|d|items|props].
  - exact HNull.
  - apply HNum.
  - apply HStr.
  - apply HDate.
  - apply HArr. induction items as [|v items IHitems]; constructor.
    + apply IH.
    + exact IHitems.
  - apply HObj. induction props as [|[k v] props IHprops]; constructor.
    + apply IH.
    + exact IHprops.
Qed.

Lemma parse_stringify_Num_idempotent x :
  Json.parse_stringify (Json.parse_stringify (Json.Num x))
  = Json.parse_stringify (Json.Num x).
Proof.
  cbn [Json.parse_stringify].
  destruct (is_finite x) eqn:Hf; [|reflexivity].
  destruct (is_zero x) eqn:Hz; cbn [Json.parse_stringify].
  - reflexivity.
  - rewrite Hf, Hz. reflexivity.
Qed.

(** X14. What is read back from a snapshot is written and read back
    unchanged: a second round through [JSON.stringify] and [JSON.parse]
    changes nothing more, for any tree of values and so for the
    collections of any state. *)
Theorem parse_stringify_idempotent :
  (forall v,
      Json.parse_stringify (Json.parse_stringify v) = Json.parse_stringify v)
  /\ (forall s, Json.parse_stringify (rehydrate s) = rehydrate s).
Proof.
  assert (H : forall v,
             Json.parse_stringify (Json.parse_stringify v)
             = Json.parse_stringify v).
  { apply value_induction.
    - reflexivity.
    - apply parse_stringify_Num_idempotent.
    - reflexivity.
    - intros [t|]; reflexivity.
    - intros items Hitems. cbn [Json.parse_stringify]. f_equal.
      rewrite map_map. apply map_ext_in. intros v Hv.
      rewrite Forall_forall in Hitems. apply Hitems. exact Hv.
    - intros props Hprops. cbn [Json.parse_stringify]. f_equal.
      rewrite map_map. apply map_ext_in. intros [k v] Hkv. cbn [fst snd].
      f_equal. rewrite Forall_forall in Hprops. apply (Hprops (k, v) Hkv). }
  split; [exact H|]. intros s. apply H.
Qed.

(** X15. A transaction whose amount is a finite number other than [-0] is
    read back from the snapshot with all its fields as written except
    [date], which is the ISO string of the date, or [null] for an invalid
    date. *)
Theorem parse_stringify_Transaction_fields (t : Transaction.t) :
  Json.exact (Transaction.amount t) = true ->
  Json.parse_stringify (Transaction_value t)
  = Json.Obj
      [ ("id", Json.Str (Transaction.id t));
        ("accountId", Json.Str (Transaction.accountId t));
        ("amount", Json.Num (Transaction.amount t));
        ("description", Json.Str (Transaction.description t));
        ("category", Json.Str (Transaction.category t));
        ("date", match Transaction.date t with
                 | Some tv => Json.Str (EcmaDate.toISOString tv)
                 | None => Json.Null
                 end);
        ("type", TransactionType_value (Transaction.type t)) ].
Proof.
  intros H. unfold Transaction_value, TransactionType_value.
  cbn [Json.parse_stringify map fst snd].
  fold (Json.parse_stringify (Json.Num (Transaction.amount t))).
  rewrite exact_parse_stringify by exact H.
  destruct (Transaction.date t); reflexivity.
Qed.

Lemma parse_stringify_Transaction_fields_witness :
  let t :=
    Transaction.mk "1" "1" (-89.50)%float "Grocery Store" "Food & Dining"
      (Some 1705276800000) expense in
  Json.get "amount" (Json.parse_stringify (Transaction_value t))
  = Some (Json.Num (-89.50)%float).
Proof.
  intros t. rewrite (parse_stringify_Transaction_fields t); reflexivity.
Defined.

(** X16. The snapshot of a state without transactions, in which every
    balance, limit and spent amount is a finite number other than [-0],
    is read back as the collections that were written. *)
Theorem rehydrate_without_transactions (s : PortfolioState) :
  transactions s = [] ->
  Forall (fun a => Json.exact (Account.balance a) = true) (accounts s) ->
  Forall (fun b => Json.exact (Budget.limit b) = true
                   /\ Json.exact (Budget.spent b) = true) (budgets s) ->
  rehydrate s = partialize s.
Proof.
  intros Ht Ha Hb. unfold rehydrate, partialize. rewrite Ht.
  cbn [Json.parse_stringify map fst snd]. rewrite !map_map.
  assert (Ea : map (fun a => Json.parse_stringify (Account_value a)) (accounts s)
               = map Account_value (accounts s)).
  { apply map_ext_in. intros a Hin. apply parse_stringify_Account.
    rewrite Forall_forall in Ha. apply Ha. exact Hin. }
  assert (Eb : map (fun b => Json.parse_stringify (Budget_value b)) (budgets s)
               = map Budget_value (budgets s)).
  { apply map_ext_in. intros b Hin. rewrite Forall_forall in Hb.
    apply parse_stringify_Budget; apply (Hb b Hin). }
  rewrite Ea, Eb. reflexivity.
Qed.

Lemma rehydrate_without_transactions_witness :
  let s := set_transactions [] (initialState (EcmaDate.fixedZone 0)) in
  rehydrate s = partialize s.
Proof.
  intros s. apply rehydrate_without_transactions.
  - reflexivity.
  - repeat constructor.
  - repeat constructor.
Defined.

(* ================================================================= *)
(** * Properties of the views *)

From Stdlib Require Import Permutation Sorted.

(** ** Sorting by date *)

Module SortFacts.
Import Views.

Lemma insert_perm {A} (c : A -> A -> option Z) x l :
  Permutation (insert c x l) (x :: l).
Proof.
  induction l as [|y l IH]; simpl; [reflexivity|].
  destruct (0 <? sortCompare c x y); [|reflexivity].
  rewrite IH. apply perm_swap.
Qed.

Lemma sort_perm {A} (c : A -> A -> option Z) l : Permutation (sort c l) l.
Proof.
  induction l as [|x l IH]; simpl; [reflexivity|].
  rewrite insert_perm. constructor. exact IH.
Qed.

Lemma sort_In {A} (c : A -> A -> option Z) l x : In x (sort c l) <-> In x l.
Proof.
  split; apply Permutation_in; [|symmetry]; apply sort_perm.
Qed.

Lemma insert_In {A} (c : A -> A -> option Z) x l z :
  In z (insert c x l) <-> z = x \/ In z l.
Proof.
  split.
  - intros H. apply (Permutation_in _ (insert_perm c x l)) in H.
    destruct H as [H|H]; [left; symmetry; exact H|right; exact H].
  - intros H. apply (Permutation_in _ (Permutation_sym (insert_perm c x l))).
    destruct H as [H|H]; [left; symmetry; exact H|right; exact H].
Qed.

Lemma insert_sorted x l :
  validDate x -> Forall validDate l ->
  StronglySorted notNewer l -> StronglySorted notNewer (insert byDateDesc x l).
Proof.
  intros Hx Hl Hs. induction Hs as [|y l Hs IH Hy]; cbn [insert].
  - repeat constructor.
  - inversion Hl as [|? ? Hvy Hvl]; subst.
    assert (Hc : sortCompare byDateDesc x y
                 = match Transaction.date y, Transaction.date x with
                   | Some ty, Some tx => ty - tx
                   | _, _ => 0
                   end).
    { unfold sortCompare, byDateDesc.
      destruct (Transaction.date y), (Transaction.date x); reflexivity. }
    unfold validDate in Hx, Hvy.
    destruct (Transaction.date x) as [tx|] eqn:Ex; [|congruence].
    destruct (Transaction.date y) as [ty|] eqn:Ey; [|congruence].
    rewrite Hc.
    destruct (Z.ltb_spec 0 (ty - tx)) as [Hlt|Hge].
    + constructor; [apply IH; exact Hvl|].
      apply Forall_forall. intros z Hz. apply insert_In in Hz.
      destruct Hz as [->|Hz].
      * unfold notNewer. rewrite Ex, Ey. lia.
      * rewrite Forall_forall in Hy. apply Hy. exact Hz.
    + constructor; [constructor; assumption|].
      constructor; [unfold notNewer; rewrite Ex, Ey; lia|].
      rewrite Forall_forall in *. intros z Hz. specialize (Hy z Hz).
      specialize (Hvl z Hz). unfold notNewer, validDate in *.
      rewrite Ex. rewrite Ey in Hy.
      destruct (Transaction.date z); [lia|congruence].
Qed.

Lemma sort_sorted l :
  Forall validDate l -> StronglySorted notNewer (sort byDateDesc l).
Proof.
  induction l as [|x l IH]; cbn [sort fold_right]; intros H; [constructor|].
  inversion H as [|? ? Hx Hl]; subst. fold (sort byDateDesc l).
  apply insert_sorted; [exact Hx| |apply IH; exact Hl].
  apply Forall_forall. intros z Hz. apply sort_In in Hz.
  rewrite Forall_forall in Hl. apply Hl. exact Hz.
Qed.

Lemma insert_first x l :
  Forall (notNewer x) l -> insert byDateDesc x l = x :: l.
Proof.
  intros H. destruct l as [|y l]; [reflexivity|]. simpl.
  inversion H as [|? ? Hy _]; subst.
  unfold notNewer in Hy. unfold sortCompare, byDateDesc.
  destruct (Transaction.date x); [|contradiction].
  destruct (Transaction.date y); [|contradiction].
  destruct (Z.ltb_spec 0 (z0 - z)); [lia|reflexivity].
Qed.

Lemma sort_sorted_id l : StronglySorted notNewer l -> sort byDateDesc l = l.
Proof.
  intros H. induction H as [|x l Hs IH Hx]; simpl; [reflexivity|].
  rewrite IH. apply insert_first. exact Hx.
Qed.

(** Stability: the transactions of one date keep their order. *)
Lemma insert_stable (p : Transaction.t -> bool) x l :
  (forall y, p x = true -> p y = true -> sortCompare byDateDesc x y = 0) ->
  filter p (insert byDateDesc x l) = filter p (x :: l).
Proof.
  intros H. induction l as [|y l IH]; [reflexivity|].
  cbn [insert].
  destruct (Z.ltb_spec 0 (sortCompare byDateDesc x y)) as [Hlt|Hge];
    [|reflexivity].
  cbn [filter] in *. rewrite IH.
  destruct (p x) eqn:Ex, (p y) eqn:Ey; try reflexivity.
  specialize (H y eq_refl Ey). lia.
Qed.

Lemma sort_stable (d : Z) l :
  let onDate t :=
    match Transaction.date t with Some x => x =? d | None => false end in
  filter onDate (sort byDateDesc l) = filter onDate l.
Proof.
  intros onDate. induction l as [|x l IH]; [reflexivity|].
  cbn [sort fold_right]. fold (sort byDateDesc l).
  rewrite insert_stable.
  - cbn [filter]. rewrite IH. reflexivity.
  - intros y Hx Hy. unfold onDate in Hx, Hy. unfold sortCompare, byDateDesc.
    destruct (Transaction.date x) as [tx|]; [|discriminate].
    destruct (Transaction.date y) as [ty|]; [|discriminate].
    apply Z.eqb_eq in Hx, Hy. lia.
Qed.

End SortFacts.

Lemma StronglySorted_app_inv {A} (R : A -> A -> Prop) (l1 l2 : list A) :
  StronglySorted R (l1 ++ l2) ->
  StronglySorted R l1
  /\ forall a b, In a l1 -> In b l2 -> R a b.
Proof.
  induction l1 as [|x l1 IH]; simpl; intros H.
  - split; [constructor|]. intros a b [].
  - inversion H as [|? ? Hs Hx]; subst.
    destruct (IH Hs) as [Hs1 Hc]. split.
    + constructor; [exact Hs1|].
      rewrite Forall_forall in *. intros z Hz. apply Hx. apply in_or_app.
      left. exact Hz.
    + intros a b [<-|Ha] Hb.
      * rewrite Forall_forall in Hx. apply Hx. apply in_or_app. right. exact Hb.
      * apply Hc; assumption.
Qed.

Lemma StronglySorted_filter {A} (R : A -> A -> Prop) (p : A -> bool) l :
  StronglySorted R l -> StronglySorted R (filter p l).
Proof.
  intros H. induction H as [|x l Hs IH Hx]; simpl; [constructor|].
  destruct (p x); [|exact IH]. constructor; [exact IH|].
  rewrite Forall_forall in *. intros z Hz. apply Hx.
  apply filter_In in Hz. exact (proj1 Hz).
Qed.

(** ** The dashboard *)

(** X17. When every transaction has a valid date, the dashboard shows the
    five newest transactions, newest first, or all of them when there are
    fewer: those shown are transactions of the store, each one dated no
    earlier than the next, and no transaction left out is newer than one
    shown. *)
Theorem recentTransactions_newest (s : PortfolioState) :
  Forall Views.validDate (transactions s) ->
  List.length (Views.recentTransactions s)
  = Nat.min 5 (List.length (transactions s))
  /\ (forall t, In t (Views.recentTransactions s) -> In t (transactions s))
  /\ StronglySorted Views.notNewer (Views.recentTransactions s)
  /\ (forall shown left_out,
         In shown (Views.recentTransactions s) ->
         In left_out (skipn 5 (transactions (Views.sortInPlace s))) ->
         Views.notNewer shown left_out).
Proof.
  intros H. unfold Views.recentTransactions, Views.sortInPlace.
  cbn [transactions set_transactions].
  pose proof (SortFacts.sort_sorted _ H) as Hs.
  rewrite <- (firstn_skipn 5 (Views.sort Views.byDateDesc (transactions s))) in Hs.
  apply StronglySorted_app_inv in Hs. destruct Hs as [Hs Hc].
  split; [|split; [|split]].
  - rewrite length_firstn.
    rewrite (Permutation_length (SortFacts.sort_perm _ (transactions s))).
    reflexivity.
  - intros t Ht. apply (SortFacts.sort_In Views.byDateDesc).
    rewrite <- (firstn_skipn 5 (Views.sort Views.byDateDesc (transactions s))).
    apply in_or_app. left. exact Ht.
  - exact Hs.
  - exact Hc.
Qed.

Lemma recentTransactions_newest_witness :
  map Transaction.id (Views.recentTransactions (initialState (EcmaDate.fixedZone 0)))
  = ["1"; "2"; "3"]
  /\ StronglySorted Views.notNewer (Views.recentTransactions (initialState (EcmaDate.fixedZone 0))).
Proof.
  split; [reflexivity|].
  apply (recentTransactions_newest (initialState (EcmaDate.fixedZone 0))).
  repeat constructor; discriminate.
Defined.

(** X18. Rendering the dashboard sorts the array of transactions that the
    store holds: afterwards the store has the same transactions, newest
    first when every date is valid, transactions of one date in the order
    they had; the accounts and the budgets are untouched; what
    [getTransactionsByAccount] returns is newest first too; and a second
    rendering changes nothing more. *)
Theorem sortInPlace_effect (s : PortfolioState) :
  Permutation (transactions (Views.sortInPlace s)) (transactions s)
  /\ accounts (Views.sortInPlace s) = accounts s
  /\ budgets (Views.sortInPlace s) = budgets s
  /\ (Forall Views.validDate (transactions s) ->
      StronglySorted Views.notNewer (transactions (Views.sortInPlace s))
      /\ (forall d,
             let onDate t :=
               match Transaction.date t with
               | Some x => x =? d
               | None => false
               end in
             filter onDate (transactions (Views.sortInPlace s))
             = filter onDate (transactions s))
      /\ (forall accountId,
             StronglySorted Views.notNewer
               (getTransactionsByAccount accountId (Views.sortInPlace s)))
      /\ Views.sortInPlace (Views.sortInPlace s) = Views.sortInPlace s).
Proof.
  unfold Views.sortInPlace. cbn [transactions accounts budgets set_transactions].
  split; [apply SortFacts.sort_perm|]. split; [reflexivity|].
  split; [reflexivity|].
  intros H. pose proof (SortFacts.sort_sorted _ H) as Hs.
  split; [exact Hs|]. split; [intros d; apply SortFacts.sort_stable|]. split.
  - intros accountId. unfold getTransactionsByAccount. cbn [transactions].
    apply StronglySorted_filter. exact Hs.
  - unfold set_transactions. cbn [transactions accounts budgets].
    rewrite (SortFacts.sort_sorted_id _ Hs). reflexivity.
Qed.

Lemma sortInPlace_effect_witness :
  let tx id date :=
    Transaction.mk id "1" (-1)%float "Lunch" "Food & Dining" (Some date)
      expense in
  let s := mkState [] [tx "a" 10; tx "b" 30; tx "c" 20; tx "d" 30] [] in
  map Transaction.id (transactions (Views.sortInPlace s)) = ["b"; "d"; "c"; "a"]
  /\ StronglySorted Views.notNewer (transactions (Views.sortInPlace s)).
Proof.
  intros tx s. split; [reflexivity|].
  destruct (sortInPlace_effect s) as (_ & _ & _ & H).
  apply H. repeat constructor; discriminate.
Defined.



(** ** The transaction list *)

Lemma includes_refl (s : string) : Views.includes s s = true.
Proof.
  unfold Views.includes.
  assert (H : String.index 0 s s = Some 0%nat).
  { destruct s as [|c s]; [reflexivity|].
    cbn [String.index]. rewrite (proj2 (prefix_correct _ _)); [reflexivity|].
    cbn [String.length]. cbn [String.substring].
    f_equal. clear c. induction s as [|c s IH]; [reflexivity|].
    cbn [String.length String.substring]. f_equal. exact IH. }
  rewrite H. reflexivity.
Qed.

(** X20. The transaction list shows exactly the transactions that pass the
    three controls, sorted newest first when every date is valid.  With
    the controls at ["all"], ["all"] and an empty search it shows every
    transaction; a type or account filter other than ["all"] keeps only
    the transactions of that type or account; two search terms with the
    same lower-case form select the same transactions; and a transaction
    is found by its own description or category. *)
Theorem filteredTransactions_spec
    (toLowerCase : string -> string)
    (filterType filterAccount searchTerm : string)
    (transactions : list Transaction.t) :
  let shown :=
    Views.filteredTransactions toLowerCase filterType filterAccount searchTerm
      transactions in
  (forall t,
      In t shown
      <-> In t transactions
          /\ Views.passes toLowerCase filterType filterAccount searchTerm t
             = true)
  /\ (Forall Views.validDate transactions ->
      StronglySorted Views.notNewer shown)
  /\ Permutation
       (Views.filteredTransactions toLowerCase "all" "all" "" transactions)
       transactions
  /\ (filterType <> "all" ->
      forall t, In t shown -> Views.typeName (Transaction.type t) = filterType)
  /\ (filterAccount <> "all" ->
      forall t, In t shown -> Transaction.accountId t = filterAccount)
  /\ (forall other t,
         searchTerm <> "" -> other <> "" ->
         toLowerCase other = toLowerCase searchTerm ->
         Views.passes toLowerCase filterType filterAccount other t
         = Views.passes toLowerCase filterType filterAccount searchTerm t)
  /\ (forall t,
         Views.passes toLowerCase "all" "all" (Transaction.description t) t
         = true
         /\ Views.passes toLowerCase "all" "all" (Transaction.category t) t
            = true).
Proof.
  intros shown.
  assert (Hin : forall t,
             In t shown
             <-> In t transactions
                 /\ Views.passes toLowerCase filterType filterAccount
                      searchTerm t = true).
  { intros t. unfold shown, Views.filteredTransactions.
    rewrite SortFacts.sort_In, filter_In. reflexivity. }
  split; [exact Hin|]. split; [|split; [|split; [|split; [|split]]]].
  - intros Hv. unfold shown, Views.filteredTransactions.
    apply SortFacts.sort_sorted. apply Forall_forall. intros t Ht.
    apply filter_In in Ht. rewrite Forall_forall in Hv. apply Hv.
    exact (proj1 Ht).
  - unfold Views.filteredTransactions. rewrite SortFacts.sort_perm.
    rewrite filter_all; [reflexivity|]. intros t _. reflexivity.
  - intros Hne t Ht. apply Hin in Ht. destruct Ht as [_ Ht].
    unfold Views.passes in Ht. rewrite (eqb_neq_false _ _ Hne) in Ht.
    cbn [negb andb] in Ht.
    destruct (String.eqb_spec (Views.typeName (Transaction.type t)) filterType)
      as [E|_]; [exact E|discriminate].
  - intros Hne t Ht. apply Hin in Ht. destruct Ht as [_ Ht].
    unfold Views.passes in Ht.
    destruct (negb (filterType === "all")
              && negb (Views.typeName (Transaction.type t) === filterType));
      [discriminate|].
    rewrite (eqb_neq_false _ _ Hne) in Ht. cbn [negb andb] in Ht.
    destruct (String.eqb_spec (Transaction.accountId t) filterAccount)
      as [E|_]; [exact E|discriminate].
  - intros other t Hs Ho E. unfold Views.passes.
    rewrite (eqb_neq_false _ _ Hs), (eqb_neq_false _ _ Ho), E. reflexivity.
  - intros t. unfold Views.passes. cbn [String.eqb negb andb].
    rewrite !includes_refl. cbn [negb].
    rewrite !andb_false_r, !andb_false_l. split; reflexivity.
Qed.

Lemma filteredTransactions_spec_witness :
  map Transaction.id
    (Views.filteredTransactions (fun s => s) "expense" "1" "Gas"
       (transactions (initialState (EcmaDate.fixedZone 0))))
  = ["2"]
  /\ StronglySorted Views.notNewer
       (Views.filteredTransactions (fun s => s) "expense" "1" "Gas"
          (transactions (initialState (EcmaDate.fixedZone 0)))).
Proof.
  split; [reflexivity|].
  apply (filteredTransactions_spec (fun s => s) "expense" "1" "Gas"
           (transactions (initialState (EcmaDate.fixedZone 0)))).
  repeat constructor; discriminate.
Defined.

(** ** The budget status *)

Module BudgetFacts.
Local Open Scope float_scope.

Lemma Prim2SF_hundred :
  exists m e, Prim2SF 100 = S754_finite false m e.
Proof. eexists. eexists. vm_compute. reflexivity. Qed.

Lemma positive_spec (x : float) :
  (0 <? x) = true ->
  Prim2SF x = S754_infinity false
  \/ exists m e, Prim2SF x = S754_finite false m e.
Proof.
  rewrite ltb_spec. change (Prim2SF 0) with (S754_zero false).
  destruct (Prim2SF x) as [s|s| |s m e]; try discriminate.
  - destruct s; [discriminate|]. left. reflexivity.
  - destruct s; [discriminate|]. right. eauto.
Qed.

(** The thresholds are not reached by NaN, nor by a zero. *)
Lemma below_thresholds (p : float) :
  Prim2SF p = S754_nan \/ (exists s, Prim2SF p = S754_zero s) ->
  (100 <=? p) = false /\ (80 <=? p) = false /\ (60 <=? p) = false.
Proof.
  intros H. rewrite !leb_spec.
  assert (E : forall s, Prim2SF p = s ->
              s = S754_nan \/ (exists sg, s = S754_zero sg) ->
              SFleb (Prim2SF 100) s = false /\ SFleb (Prim2SF 80) s = false
              /\ SFleb (Prim2SF 60) s = false).
  { intros s _ [->|[sg ->]]; vm_compute; repeat split; reflexivity. }
  destruct H as [H|[s H]]; rewrite H; apply (E _ H); eauto.
Qed.

Lemma mul_hundred_nan (q : float) :
  Prim2SF q = S754_nan -> Prim2SF (q * 100) = S754_nan.
Proof. intros H. rewrite mul_spec, H. reflexivity. Qed.

Lemma mul_hundred_zero (q : float) s :
  Prim2SF q = S754_zero s -> Prim2SF (q * 100) = S754_zero s.
Proof.
  intros H. rewrite mul_spec, H. destruct Prim2SF_hundred as (m & e & ->).
  unfold SF64mul, SFmul. destruct s; reflexivity.
Qed.

Lemma mul_hundred_infinity (q : float) :
  Prim2SF q = S754_infinity false -> Prim2SF (q * 100) = S754_infinity false.
Proof.
  intros H. rewrite mul_spec, H. destruct Prim2SF_hundred as (m & e & ->).
  reflexivity.
Qed.

End BudgetFacts.

Lemma zero_cases (x : float) :
  is_zero x = true -> x = 0%float \/ x = (-0)%float.
Proof.
  intros H. apply Num.is_zero_spec in H. destruct H as [[|] H].
  - right. apply Prim2SF_inj. rewrite H. reflexivity.
  - left. apply Prim2SF_inj. rewrite H. reflexivity.
Qed.

(** X21. With a budget limit that is a zero, [getBudgetStatus] is
    ["excellent"] when nothing has been spent, the ratio being NaN; when
    something has been spent it is ["over"] for the limit [0], the ratio
    being [Infinity], and ["excellent"] for the limit [-0], the ratio being
    [-Infinity]. *)
Theorem getBudgetStatus_zero_limit (spent limit : Js.number) :
  is_zero limit = true ->
  (limit = 0%float \/ limit = (-0)%float)
  /\ (is_zero spent = true -> Views.getBudgetStatus spent limit = "excellent")
  /\ ((0 <? spent)%float = true ->
      (limit = 0%float -> Views.getBudgetStatus spent limit = "over")
      /\ (limit = (-0)%float ->
          Views.getBudgetStatus spent limit = "excellent")).
Proof.
  intros Hz. split; [apply zero_cases; exact Hz|].
  unfold Views.getBudgetStatus. split.
  - intros H. apply Num.is_zero_spec in H. destruct H as [s H].
    apply Num.is_zero_spec in Hz. destruct Hz as [sl Hl].
    assert (Hq : Prim2SF (spent / limit)%float = S754_nan).
    { rewrite div_spec, H, Hl. reflexivity. }
    apply BudgetFacts.mul_hundred_nan in Hq.
    destruct (BudgetFacts.below_thresholds _ (or_introl Hq)) as (-> & -> & ->).
    reflexivity.
  - intros H. apply BudgetFacts.positive_spec in H. split.
    + intros ->.
      assert (Hq : Prim2SF (spent / 0)%float = S754_infinity false).
      { rewrite div_spec. change (Prim2SF 0%float) with (S754_zero false).
        destruct H as [->|(m & e & ->)]; reflexivity. }
      apply BudgetFacts.mul_hundred_infinity in Hq.
      assert (Hle : (100 <=? spent / 0 * 100)%float = true).
      { rewrite leb_spec, Hq. vm_compute. reflexivity. }
      rewrite Hle. reflexivity.
    + intros ->.
      assert (Hq : Prim2SF (spent / -0)%float = S754_infinity true).
      { rewrite div_spec. change (Prim2SF (-0)%float) with (S754_zero true).
        destruct H as [->|(m & e & ->)]; reflexivity. }
      assert (Hp : Prim2SF (spent / -0 * 100)%float = S754_infinity true).
      { rewrite mul_spec, Hq.
        destruct BudgetFacts.Prim2SF_hundred as (m & e & ->). reflexivity. }
      assert (Hle : (100 <=? spent / -0 * 100)%float = false
                    /\ (80 <=? spent / -0 * 100)%float = false
                    /\ (60 <=? spent / -0 * 100)%float = false).
      { rewrite !leb_spec, Hp. vm_compute. repeat split; reflexivity. }
      destruct Hle as (-> & -> & ->). reflexivity.
Qed.

Lemma getBudgetStatus_zero_limit_witness :
  Views.getBudgetStatus 0.25%float 0%float = "over"
  /\ Views.getBudgetStatus 0.25%float (-0)%float = "excellent".
Proof.
  split.
  - apply (getBudgetStatus_zero_limit 0.25%float 0%float); reflexivity.
  - apply (getBudgetStatus_zero_limit 0.25%float (-0)%float); reflexivity.
Defined.

(** X22. [getBudgetStatus] is ["excellent"] whenever the amount spent or
    the limit is NaN, and whenever nothing has been spent against a limit
    that is neither zero nor NaN: none of the three thresholds is reached
    by a NaN or by a zero percentage. *)
Theorem getBudgetStatus_excellent (spent limit : Js.number) :
  (is_nan spent = true \/ is_nan limit = true ->
   Views.getBudgetStatus spent limit = "excellent")
  /\ (is_zero spent = true -> is_zero limit = false -> is_nan limit = false ->
      Views.getBudgetStatus spent limit = "excellent").
Proof.
  unfold Views.getBudgetStatus. split.
  - intros H.
    assert (Hq : Prim2SF (spent / limit)%float = S754_nan).
    { rewrite div_spec. destruct H as [H|H]; apply Num.is_nan_spec in H;
        rewrite H; [reflexivity|].
      unfold SF64div, SFdiv. destruct (Prim2SF spent); reflexivity. }
    apply BudgetFacts.mul_hundred_nan in Hq.
    destruct (BudgetFacts.below_thresholds _ (or_introl Hq)) as (-> & -> & ->).
    reflexivity.
  - intros Hs Hz Hn. apply Num.is_zero_spec in Hs. destruct Hs as [s Hs].
    assert (Hq : exists sg, Prim2SF (spent / limit)%float = S754_zero sg).
    { rewrite div_spec, Hs. unfold SF64div, SFdiv.
      destruct (Prim2SF limit) as [sl|sl| |sl m e] eqn:El.
      - exfalso. assert (is_zero limit = true)
          by (apply Num.is_zero_spec; eauto). congruence.
      - eauto.
      - exfalso. assert (is_nan limit = true)
          by (apply Num.is_nan_spec; exact El). congruence.
      - eauto. }
    destruct Hq as [sg Hq]. apply BudgetFacts.mul_hundred_zero in Hq.
    destruct (BudgetFacts.below_thresholds _ (or_intror (ex_intro _ sg Hq)))
      as (-> & -> & ->).
    reflexivity.
Qed.

Lemma getBudgetStatus_excellent_witness :
  Views.getBudgetStatus 0%float 500%float = "excellent".
Proof.
  apply (proj2 (getBudgetStatus_excellent 0%float 500%float)); reflexivity.
Defined.

(** ** Adding an account *)

(** X23. [addAccount] adds the balance of the new account to
    [getTotalBalance], as the last term of the sum; and when no older
    account has the generated identifier, [getAccountBalance] returns
    [balance || 0] for it: the balance given, unless it is zero or NaN. *)
Theorem addAccount_balances
    (uuid : string) (account : Account.input) (s : PortfolioState) :
  getTotalBalance (addAccount uuid account s)
  = (getTotalBalance s + Account.i_balance account)%float
  /\ (~ In uuid (map Account.id (accounts s)) ->
      getAccountBalance uuid (addAccount uuid account s)
      = Js.or (Account.i_balance account) 0%float)
  /\ (forall other,
         other <> uuid ->
         getAccountBalance other (addAccount uuid account s)
         = getAccountBalance other s).
Proof.
  unfold getTotalBalance, getAccountBalance, addAccount.
  cbn [accounts set_accounts]. split; [|split].
  - rewrite fold_left_app. reflexivity.
  - intros H.
    assert (E : forall l,
               (forall a, In a l -> (Account.id a === uuid) = false) ->
               find (fun acc => Account.id acc === uuid)
                    (l ++ [Account.with_id account uuid])
               = Some (Account.with_id account uuid)).
    { induction l as [|a l IH]; intros Hl.
      - cbn. rewrite String.eqb_refl. reflexivity.
      - cbn [app find]. rewrite (Hl a) by (left; reflexivity).
        apply IH. intros b Hb. apply Hl. right. exact Hb. }
    rewrite E; [reflexivity|].
    intros a Ha. apply negb_true_iff. apply (fresh_no_match Account.id _ _ H a Ha).
  - intros other Hne.
    assert (E : forall l,
               find (fun acc => Account.id acc === other)
                    (l ++ [Account.with_id account uuid])
               = find (fun acc => Account.id acc === other) l).
    { induction l as [|a l IH].
      - cbn. rewrite eqb_neq_false by congruence. reflexivity.
      - cbn [app find]. rewrite IH. reflexivity. }
    rewrite E. reflexivity.
Qed.

Lemma addAccount_balances_witness :
  let account := Account.mk_input "Travel" savings 250%float "USD" in
  getAccountBalance "u-1" (addAccount "u-1" account (initialState (EcmaDate.fixedZone 0)))
  = 250%float.
Proof.
  intros account.
  destruct (addAccount_balances "u-1" account (initialState (EcmaDate.fixedZone 0))) as (_ & H & _).
  rewrite H; [reflexivity|].
  simpl. intuition discriminate.
Defined.
